(** * A shallow embedding of chosi (src/main.go)

    chosi customises a cloud disk image: it converts the image to raw,
    attaches it to a loop device, mounts its partitions, mutates the guest
    filesystem and releases everything again.  Every interaction with the
    host (a file operation, an HTTP request, an external command started
    with [exec.Command]) is a [Cmd]; a run is a computation in a small
    monad that appends each command it issues to a trace and receives the
    command's outcome from an oracle indexed by the position of the
    command in the trace.  Go's [defer] is modelled by [defer], which runs
    the release after the body and discards its result, as the source
    does for every deferred call. *)

From Stdlib Require Import String Ascii List ZArith Lia Bool Sorted.
Import ListNotations.
Open Scope string_scope.

(** ** Host commands and their outcomes *)

(** Errors reported by the host; [os.IsNotExist] distinguishes [NotExist]. *)
Inductive HostErr : Type :=
| NotExist
| Failed (msg : string).

Definition host_err_text (e : HostErr) : string :=
  match e with
  | NotExist => "file does not exist"
  | Failed m => m
  end.

(** Outcome of one command: the error ([None] is Go's [nil]), the text
    output (stdout/stderr, the directory made by [MkdirTemp], the file
    contents read after [os.Open]) and a number (file size for [Stat],
    status code for an HTTP response). *)
Record Res : Type := mkRes {
  r_err : option HostErr;
  r_out : string;
  r_num : Z
}.

Inductive Cmd : Type :=
| Stat (p : string)                 (* os.Stat *)
| HttpGet (url : string)            (* http.Get *)
| CloseBody (url : string)          (* resp.Body.Close *)
| CreateFile (p : string)           (* os.Create *)
| OpenFile (p : string)             (* os.Open *)
| CopyData (dst src : string)       (* io.Copy *)
| CloseFile (p : string)            (* File.Close *)
| WriteFile (p content : string)    (* template Execute into the file *)
| Mkdir (p : string)                (* os.Mkdir *)
| MkdirTemp (pattern : string)      (* os.MkdirTemp("", pattern) *)
| RemoveAll (p : string)            (* os.RemoveAll *)
| RemoveFile (p : string)           (* os.Remove *)
| Exec (argv : list string).        (* exec.Command(argv...) run to completion *)

Definition Oracle : Type := nat -> Cmd -> Res.

(** ** The monad: a trace of issued commands threaded through the run *)

Definition M (A : Type) : Type := list Cmd -> A * list Cmd.

Definition ret {A} (a : A) : M A := fun tr => (a, tr).

Definition bind {A B} (m : M A) (k : A -> M B) : M B :=
  fun tr => let (a, tr') := m tr in k a tr'.

Notation "x <- m ;; k" := (bind m (fun x => k))
  (at level 61, m at next level, right associativity).
Notation "' p <- m ;; k" := (bind m (fun x => match x with p => k end))
  (at level 61, p pattern, m at next level, right associativity).

(** [defer release body]: Go's [defer release(); body]; the result of
    [release] is dropped. *)
Definition defer {A B} (release : M B) (body : M A) : M A :=
  a <- body ;; _ <- release ;; ret a.

(** ** Go values used by the program *)

(** [int64] arithmetic wraps modulo 2^64 into [-2^63, 2^63). *)
Definition wrap64 (z : Z) : Z := Z.modulo (z + 2 ^ 63) (2 ^ 64) - 2 ^ 63.
Definition add64 (a b : Z) : Z := wrap64 (a + b).
Definition mul64 (a b : Z) : Z := wrap64 (a * b).
(** Go's [/] on integers truncates toward zero. *)
Definition div64 (a b : Z) : Z := wrap64 (Z.quot a b).

(** [fmt.Sprintf("%d", z)] for a 64-bit integer. *)
Fixpoint digits_aux (fuel : nat) (n : Z) (acc : string) : string :=
  match fuel with
  | O => acc
  | S f =>
      let acc' := String (ascii_of_nat (48 + Z.to_nat (Z.rem n 10))) acc in
      let q := Z.quot n 10 in
      if (q =? 0)%Z then acc' else digits_aux f q acc'
  end.

Definition fmt_d (z : Z) : string :=
  if (z <? 0)%Z then "-" ++ digits_aux 20 (- z) "" else digits_aux 20 z "".

(** *** The [path] package *)

(** Splitting a path at every slash (strings.Split(p, "/")). *)
Fixpoint split_path (s : string) : list string :=
  match s with
  | EmptyString => [""]
  | String c rest =>
      let parts := split_path rest in
      if Ascii.eqb c "/"%char then "" :: parts
      else match parts with
           | p :: ps => String c p :: ps
           | [] => [String c ""]
           end
  end.

(** One element of [path.Clean]'s lexical processing; the stack of kept
    elements is held in reverse. *)
Definition clean_step (rooted : bool) (stack : list string) (e : string)
  : list string :=
  if (e =? "") || (e =? ".") then stack
  else if e =? ".." then
    match stack with
    | x :: st => if x =? ".." then e :: stack else st
    | [] => if rooted then [] else [e]
    end
  else e :: stack.

Definition is_rooted (p : string) : bool :=
  match p with
  | String c _ => Ascii.eqb c "/"%char
  | EmptyString => false
  end.

(** [path.Clean]. *)
Definition path_Clean (p : string) : string :=
  if p =? "" then "." else
  let rooted := is_rooted p in
  let body := String.concat "/" (rev (fold_left (clean_step rooted) (split_path p) [])) in
  if rooted then "/" ++ body
  else if body =? "" then "." else body.

(** [path.Join(a, b)]: the non-empty elements joined by a slash, cleaned. *)
Definition path_join (a b : string) : string :=
  if a =? "" then (if b =? "" then "" else path_Clean b)
  else path_Clean (a ++ "/" ++ b).

(** [path.Base]. *)
Definition path_base (p : string) : string :=
  if p =? "" then "." else
  let r := rev (list_ascii_of_string p) in
  let r' := (fix drop l := match l with
                           | c :: l' => if Ascii.eqb c "/"%char then drop l' else l
                           | [] => []
                           end) r in
  match r' with
  | [] => "/"
  | _ => string_of_list_ascii
           (rev ((fix take l := match l with
                                | c :: l' => if Ascii.eqb c "/"%char then [] else c :: take l'
                                | [] => []
                                end) r'))
  end.

(** ** The boot-loader configuration template *)

(** Modelled from the spec: the embedded template [grub.cfg.tmpl] (not in
    the sources) is "a text template with three named substitution points
    — kernel path, initrd path, kernel command line".  A parsed template is
    a list of literal text and substitution points. *)
Inductive TmplSeg : Type :=
| Lit (s : string)
| FieldKernel
| FieldInitrd
| FieldCmdline.

(** The anonymous struct passed to [tmpl.Execute] in [configureGrub]. *)
Record GrubConfig : Type := mkGrubConfig {
  Kernel : string;
  Initrd : string;
  Cmdline : string
}.

(** [html/template] escapes a value substituted in text context with its
    HTML replacement table. *)
Fixpoint html_escape (s : string) : string :=
  match s with
  | EmptyString => ""
  | String c rest =>
      let r := html_escape rest in
      if Ascii.eqb c "034"%char then "&#34;" ++ r
      else if Ascii.eqb c "&"%char then "&amp;" ++ r
      else if Ascii.eqb c "'"%char then "&#39;" ++ r
      else if Ascii.eqb c "+"%char then "&#43;" ++ r
      else if Ascii.eqb c "<"%char then "&lt;" ++ r
      else if Ascii.eqb c ">"%char then "&gt;" ++ r
      else if Ascii.eqb c "000"%char
           then String "239"%char (String "191"%char (String "189"%char r))
      else String c r
  end.

Fixpoint render (t : list TmplSeg) (c : GrubConfig) : string :=
  match t with
  | [] => ""
  | Lit s :: t' => s ++ render t' c
  | FieldKernel :: t' => html_escape (Kernel c) ++ render t' c
  | FieldInitrd :: t' => html_escape (Initrd c) ++ render t' c
  | FieldCmdline :: t' => html_escape (Cmdline c) ++ render t' c
  end.

(** Substring test, used to read properties off rendered text. *)
Fixpoint contains (needle hay : string) : bool :=
  String.prefix needle hay ||
  match hay with
  | EmptyString => false
  | String _ rest => contains needle rest
  end.

(** ** The configuration record *)

(** [Config], with the fields named by their JSON keys. *)
Record Config : Type := mkConfig {
  cloudinit_config_path : string;
  image_url : string;
  extra_packages : list string;
  remove_packages : list string;
  kernel_version : string;
  output_format : string
}.

(** Error text of [fmt.Errorf("<prefix>: %w", err)] and of
    [fmt.Errorf("<prefix>: %w: %s", err, output)]. *)
Definition wrap (prefix : string) (e : string) : string := prefix ++ ": " ++ e.
Definition wrap_out (prefix : string) (e : HostErr) (out : string) : string :=
  prefix ++ ": " ++ host_err_text e ++ ": " ++ out.

Definition FormatRAW : string := "raw".
Definition FormatQCOW2 : string := "qcow2".
Definition FormatVHD : string := "vhd".

(** [int64(math.Pow(1024, 2))]. *)
Definition mebibyte : Z := 1048576.

(** The size computed by [convertImageToFormat] before resizing for VHD:
    [((imageStat.Size() / mebibyte) + 1) * mebibyte] in [int64]. *)
Definition roundedSize (size : Z) : Z :=
  mul64 (add64 (div64 size mebibyte) 1) mebibyte.

Section Program.

(** The host: outcome of the n-th command issued. *)
Variable oracle : Oracle.
(** [runtime.GOARCH]. *)
Variable goarch : string.
(** [syscall.Geteuid()]. *)
Variable geteuid : Z.
(** The value of the [-config] flag after [flag.Parse]. *)
Variable configPath : string.
(** [json.NewDecoder(file).Decode(config)] on the contents of the config
    file: the decoded record and the decoder's error. *)
Variable decodeConfig : string -> Config * option string.
(** The parsed [grubConfigTemplate] (see [TmplSeg]). *)
Variable grubConfigTemplate : list TmplSeg.

Definition run (c : Cmd) : M Res := fun tr => (oracle (List.length tr) c, (tr ++ [c])%list).

Definition is_arm64 : bool := goarch =? "arm64".

Definition downloadFile (url filepath : string) : M (option string) :=
  resp <- run (HttpGet url) ;;
  match r_err resp with
  | Some e => ret (Some (wrap "error while downloading file" (host_err_text e)))
  | None =>
    defer (run (CloseBody url))
      (if negb (r_num resp =? 200)%Z then ret (Some (wrap "bad status" (r_out resp)))
       else
         out <- run (CreateFile filepath) ;;
         match r_err out with
         | Some e => ret (Some (wrap "error while creating file" (host_err_text e)))
         | None =>
           defer (run (CloseFile filepath))
             (r <- run (CopyData filepath url) ;;
              match r_err r with
              | Some e => ret (Some (wrap "error while writing to file" (host_err_text e)))
              | None => ret None
              end)
         end)
  end.

(** [attachLoopDevice]: [loopDevice[:len(loopDevice)-1]] drops the newline
    that [losetup --show] prints after the device name (the slice expression
    would panic on an empty output, which [losetup --show] does not
    produce on success). *)
Definition attachLoopDevice (rawImage : string) : M (string * option string) :=
  r <- run (Exec ["losetup"; "--find"; "--show"; "--partscan"; rawImage]) ;;
  match r_err r with
  | Some e => ret ("", Some (wrap "failed to attach loop device" (host_err_text e)))
  | None =>
    let loopDevice := r_out r in
    ret (substring 0 (String.length loopDevice - 1) loopDevice, None)
  end.

Definition mountLoopDevice (loopDevice mountPath : string) : M (option string) :=
  let rootPartition := loopDevice ++ "p1" in
  r <- run (Exec ["mount"; rootPartition; mountPath]) ;;
  match r_err r with
  | Some e => ret (Some (wrap_out "failed to mount loop device" e (r_out r)))
  | None =>
    let esp_mount :=
      (let esp := loopDevice ++ "p15" in
       r <- run (Exec ["mount"; esp; path_join mountPath "/boot/efi"]) ;;
       match r_err r with
       | Some e => ret (Some (wrap_out "failed to mount loop device" e (r_out r)))
       | None => ret None
       end) in
    if negb is_arm64 then
      let xboot := loopDevice ++ "p16" in
      r <- run (Exec ["mount"; xboot; path_join mountPath "/boot"]) ;;
      match r_err r with
      | Some e => ret (Some (wrap_out "failed to mount loop device" e (r_out r)))
      | None => esp_mount
      end
    else esp_mount
  end.

Definition unmountLoopDevice (mountPath : string) : M (option string) :=
  r <- run (Exec ["umount"; "-R"; mountPath]) ;;
  match r_err r with
  | Some e => ret (Some (wrap_out "failed to unmount loop device" e (r_out r)))
  | None => ret None
  end.

Definition detachLoopDevice (loopDevice : string) : M (option string) :=
  r <- run (Exec ["losetup"; "-d"; loopDevice]) ;;
  match r_err r with
  | Some e => ret (Some (wrap "failed to detach loop device" (host_err_text e)))
  | None => ret None
  end.

(** [configureCloudInit]: the result of [io.Copy] is not inspected. *)
Definition configureCloudInit (mountPath cloudInitConfigPath : string) : M (option string) :=
  let filePath := path_join mountPath "/etc/cloud/cloud.cfg.d/chosi.cfg" in
  file <- run (CreateFile filePath) ;;
  match r_err file with
  | Some e => ret (Some (wrap "error when creating file" (host_err_text e)))
  | None =>
    cfg <- run (OpenFile cloudInitConfigPath) ;;
    match r_err cfg with
    | Some e => ret (Some (wrap "error when opening cloud-init config" (host_err_text e)))
    | None =>
      defer (run (CloseFile cloudInitConfigPath))
        (_ <- run (CopyData filePath cloudInitConfigPath) ;;
         r <- run (CloseFile filePath) ;;
         match r_err r with
         | Some e => ret (Some (wrap "error when closing file" (host_err_text e)))
         | None => ret None
         end)
    end
  end.

(** The [for _, pkg := range packages] loop of [installExtraPackages]. *)
Fixpoint installLoop (mountPath absTmpDirPath tmpDirPath : string) (packages : list string)
  : M (option string) :=
  match packages with
  | [] => ret None
  | pkg :: rest =>
    r <- run (Exec ["cp"; pkg; absTmpDirPath]) ;;
    match r_err r with
    | Some e => ret (Some (wrap_out "failed copy package" e (r_out r)))
    | None =>
      let pkgName := path_base pkg in
      let pkgPath := path_join tmpDirPath pkgName in
      r <- run (Exec ["chroot"; mountPath; "dpkg"; "--unpack"; pkgPath]) ;;
      match r_err r with
      | Some e => ret (Some (wrap_out "failed to unpack package" e (r_out r)))
      | None => installLoop mountPath absTmpDirPath tmpDirPath rest
      end
    end
  end.

Definition installExtraPackages (mountPath : string) (packages : list string) : M (option string) :=
  let tmpDirPath := "/tmp/packages" in
  let absTmpDirPath := path_join mountPath "/tmp/packages" in
  r <- run (Mkdir absTmpDirPath) ;;
  match r_err r with
  | Some e => ret (Some (wrap "failed to create temp dir" (host_err_text e)))
  | None =>
    defer (run (RemoveAll absTmpDirPath))
      (installLoop mountPath absTmpDirPath tmpDirPath packages)
  end.

(** [configureGrub]; the embedded template is fixed, so its parse is the
    template [grubConfigTemplate] itself. *)
Definition configureGrub (mountPath kernel initrd cmdline : string) : M (option string) :=
  let prefix := if is_arm64 then "boot/" else "" in
  let config := {| Kernel := prefix ++ kernel;
                   Initrd := prefix ++ initrd;
                   Cmdline := cmdline |} in
  let grubConfigPath := path_join mountPath "/boot/grub/grub.cfg" in
  f <- run (CreateFile grubConfigPath) ;;
  match r_err f with
  | Some e => ret (Some (wrap "failed to open grub config" (host_err_text e)))
  | None =>
    defer (run (CloseFile grubConfigPath))
      (r <- run (WriteFile grubConfigPath (render grubConfigTemplate config)) ;;
       match r_err r with
       | Some e => ret (Some (wrap "failed to write grub config" (host_err_text e)))
       | None => ret None
       end)
  end.

Definition buildInitrd (mountPath kernelVersion : string) : M (option string) :=
  r <- run (Exec ["chroot"; mountPath; "update-initramfs"; "-c"; "-k"; kernelVersion]) ;;
  match r_err r with
  | Some e => ret (Some (wrap_out "update-initramfs failed" e (r_out r)))
  | None => ret None
  end.

Definition setupBoot (mountPath kernelVersion : string) : M (option string) :=
  err <- buildInitrd mountPath kernelVersion ;;
  match err with
  | Some e => ret (Some (wrap "failed to build initrd" e))
  | None =>
    let cmdline := if is_arm64 then "root=LABEL=cloudimg-rootfs ro"
                   else "root=LABEL=cloudimg-rootfs ro console=tty1 console=ttyS0" in
    let kernel := "vmlinuz-" ++ kernelVersion in
    let initrd := "initrd.img-" ++ kernelVersion in
    err <- configureGrub mountPath kernel initrd cmdline ;;
    match err with
    | Some e => ret (Some (wrap "failed to configure grub" e))
    | None => ret None
    end
  end.

Fixpoint RemovePackages (mountPath : string) (packages : list string) : M (option string) :=
  match packages with
  | [] => ret None
  | pkg :: rest =>
    r <- run (Exec ["chroot"; mountPath; "dpkg"; "--purge"; pkg]) ;;
    match r_err r with
    | Some e => ret (Some (wrap_out "failed to remove package" e (r_out r)))
    | None => RemovePackages mountPath rest
    end
  end.

Definition customizeMount (mountPath : string) (config : Config) : M (option string) :=
  err <- configureCloudInit mountPath (cloudinit_config_path config) ;;
  match err with
  | Some e => ret (Some (wrap "failed to configure cloud-init" e))
  | None =>
    err <- (if negb (Nat.eqb (List.length (remove_packages config)) 0)
            then err <- RemovePackages mountPath (remove_packages config) ;;
                 ret (option_map (wrap "failed to remove packages") err)
            else ret None) ;;
    match err with
    | Some e => ret (Some e)
    | None =>
      err <- (if negb (Nat.eqb (List.length (extra_packages config)) 0)
              then err <- installExtraPackages mountPath (extra_packages config) ;;
                   ret (option_map (wrap "failed to install extra packages") err)
              else ret None) ;;
      match err with
      | Some e => ret (Some e)
      | None =>
        if negb (kernel_version config =? "")
        then err <- setupBoot mountPath (kernel_version config) ;;
             ret (option_map (wrap "failed to setup boot") err)
        else ret None
      end
    end
  end.

Definition isRunningAsRoot : bool := (geteuid =? 0)%Z.

(** [ParseConfig]; Go returns a nil [*Config] ([None]) only with an error. *)
Definition ParseConfig (configPath : string) : M (option Config * option string) :=
  file <- run (OpenFile configPath) ;;
  match r_err file with
  | Some e => ret (None, Some (host_err_text e))
  | None =>
    let (config, derr) := decodeConfig (r_out file) in
    match derr with
    | Some e => ret (Some config, Some e)
    | None =>
      if image_url config =? "" then ret (Some config, Some "image_url missing")
      else if cloudinit_config_path config =? ""
      then ret (Some config, Some "cloudinit_config_file missing")
      else ret (Some config, None)
    end
  end.

(** [downloadImageIfNeeded]: any [Stat] outcome other than "does not
    exist" skips the download. *)
Definition downloadImageIfNeeded (qcow2ImagePath : string) (config : Config) : M (option string) :=
  st <- run (Stat qcow2ImagePath) ;;
  match r_err st with
  | Some NotExist =>
    err <- downloadFile (image_url config) qcow2ImagePath ;;
    match err with
    | Some e => ret (Some e)
    | None => ret None
    end
  | _ => ret None
  end.

Definition convertImageToFormat (inputFile outputFile inputFormat outputFormat : string)
  (removeInput : bool) : M (option string) :=
  let finish :=
    (if removeInput then
       r <- run (RemoveFile inputFile) ;;
       match r_err r with
       | Some e => ret (Some (wrap "failed to remove intermediary raw file" (host_err_text e)))
       | None => ret None
       end
     else ret None) in
  if outputFormat =? FormatVHD then
    imageStat <- run (Stat inputFile) ;;
    match r_err imageStat with
    | Some e => ret (Some (wrap "failed to get image stat" (host_err_text e)))
    | None =>
      let rs := roundedSize (r_num imageStat) in
      r <- run (Exec ["qemu-img"; "resize"; "-f"; inputFormat; inputFile; fmt_d rs]) ;;
      match r_err r with
      | Some e => ret (Some (wrap_out "failed to re-size image" e (r_out r)))
      | None =>
        r <- run (Exec ["qemu-img"; "convert"; "-f"; inputFormat; "-o";
                        "subformat=fixed,force_size"; "-O"; "vpc"; inputFile; outputFile]) ;;
        match r_err r with
        | Some e => ret (Some (wrap_out "failed to convert image" e (r_out r)))
        | None => finish
        end
      end
    end
  else if outputFormat =? FormatRAW then
    r <- run (Exec ["qemu-img"; "convert"; "-f"; inputFormat; "-O"; FormatRAW;
                    inputFile; outputFile]) ;;
    match r_err r with
    | Some e => ret (Some (wrap_out "failed to convert image to raw" e (r_out r)))
    | None => finish
    end
  else ret (Some "format not implemented").

(** [mountImageAndModifyFilesystem]; logging is left out. *)
Definition mountImageAndModifyFilesystem (rawImagePath : string) (config : Config) : M Z :=
  '(loopDevice, err) <- attachLoopDevice rawImagePath ;;
  match err with
  | Some _ => ret 6%Z
  | None =>
    defer (detachLoopDevice loopDevice)
      (d <- run (MkdirTemp "mount*") ;;
       match r_err d with
       | Some _ => ret 7%Z
       | None =>
         let mountPath := r_out d in
         defer (run (RemoveAll mountPath))
           (err <- mountLoopDevice loopDevice mountPath ;;
            match err with
            | Some _ => ret 8%Z
            | None =>
              defer (unmountLoopDevice mountPath)
                (err <- customizeMount mountPath config ;;
                 match err with
                 | Some _ => ret 9%Z
                 | None => ret 0%Z
                 end)
            end)
       end)
  end.

(** [customizeImage]: the exit status of the process.  After
    [mountImageAndModifyFilesystem] the source tests [err], the error of
    the preceding conversion, not [code].  [configPath] is the value of
    [-config] after [flag.Parse]; the exits [flag.Parse] takes by itself
    (2 on an undefined flag, 0 on [-h]), before any command is issued,
    are not modelled. *)
Definition customizeImage : M Z :=
  let qcow2ImagePath := "ubuntu.qcow2.img" in
  let rawImagePath := "ubuntu.img" in
  if negb isRunningAsRoot then ret 1%Z
  else if configPath =? "" then ret 2%Z
  else
    '(config, err) <- ParseConfig configPath ;;
    match config, err with
    | Some config, None =>
      err <- downloadImageIfNeeded qcow2ImagePath config ;;
      match err with
      | Some _ => ret 4%Z
      | None =>
        err <- convertImageToFormat qcow2ImagePath rawImagePath FormatQCOW2 FormatRAW false ;;
        match err with
        | Some _ => ret 5%Z
        | None =>
          code <- mountImageAndModifyFilesystem rawImagePath config ;;
          match err with
          | Some _ => ret code
          | None =>
            if negb (output_format config =? "") then
              let outputPath := rawImagePath ++ "." ++ output_format config in
              err <- convertImageToFormat rawImagePath outputPath FormatRAW (output_format config) true ;;
              match err with
              | Some _ => ret 9%Z
              | None => ret 0%Z
              end
            else ret 0%Z
          end
        end
      end
    | _, _ => ret 3%Z
    end.

End Program.

(** ** The customisation pipeline as the spec describes it

    An ordered list of stages, each present when the configuration
    populates it (configuration injection always), run one after the
    other and stopped at the first failure, which is reported with the
    stage that failed.  [customizeMount] is compared with it. *)

Inductive Stage : Type :=
| Inject
| Remove
| Install
| Boot.

Definition stage_rank (s : Stage) : nat :=
  match s with
  | Inject => 0
  | Remove => 1
  | Install => 2
  | Boot => 3
  end.

Definition populated (config : Config) (s : Stage) : bool :=
  match s with
  | Inject => true
  | Remove => negb (Nat.eqb (List.length (remove_packages config)) 0)
  | Install => negb (Nat.eqb (List.length (extra_packages config)) 0)
  | Boot => negb (kernel_version config =? "")
  end.

Definition stage_plan (config : Config) : list Stage :=
  filter (populated config) [Inject; Remove; Install; Boot].

Section Pipeline.

Variable oracle : Oracle.
Variable goarch : string.
Variable grubConfigTemplate : list TmplSeg.

Definition run_stage (mountPath : string) (config : Config) (s : Stage) : M (option string) :=
  match s with
  | Inject =>
    err <- configureCloudInit oracle mountPath (cloudinit_config_path config) ;;
    ret (option_map (wrap "failed to configure cloud-init") err)
  | Remove =>
    err <- RemovePackages oracle mountPath (remove_packages config) ;;
    ret (option_map (wrap "failed to remove packages") err)
  | Install =>
    err <- installExtraPackages oracle mountPath (extra_packages config) ;;
    ret (option_map (wrap "failed to install extra packages") err)
  | Boot =>
    err <- setupBoot oracle goarch grubConfigTemplate mountPath (kernel_version config) ;;
    ret (option_map (wrap "failed to setup boot") err)
  end.

Fixpoint run_stages (mountPath : string) (config : Config) (ss : list Stage) : M (option string) :=
  match ss with
  | [] => ret None
  | s :: ss' =>
    err <- run_stage mountPath config s ;;
    match err with
    | Some e => ret (Some e)
    | None => run_stages mountPath config ss'
    end
  end.

End Pipeline.

(** ** Concrete hosts, for evaluating the program on explicit inputs *)

Definition cmd_eq_dec (a b : Cmd) : {a = b} + {a <> b}.
Proof.
  decide equality; try apply string_dec; apply (list_eq_dec string_dec).
Defined.

Definition newline : string := String "010"%char "".

Definition ok_res (out : string) : Res := mkRes None out 0.
Definition fail_res (msg : string) : Res := mkRes (Some (Failed msg)) "" 0.

(** A host on which every command succeeds: the base image is already on
    disk, [losetup] prints [/dev/loop0], [MkdirTemp] makes [/tmp/mount1]. *)
Definition healthy_host : Oracle := fun _ c =>
  match c with
  | Stat _ => mkRes None "" 2361393152
  | HttpGet _ => mkRes None "200 OK" 200
  | MkdirTemp _ => ok_res "/tmp/mount1"
  | Exec ("losetup" :: "--find" :: _) => ok_res ("/dev/loop0" ++ newline)
  | _ => ok_res ""
  end.

(** [h] with every issue of command [bad] failing. *)
Definition failing_at (h : Oracle) (bad : Cmd) (msg : string) : Oracle := fun n c =>
  if cmd_eq_dec c bad then fail_res msg else h n c.

Definition sample_config : Config :=
  {| cloudinit_config_path := "user-data.yaml";
     image_url := "https://cloud-images.ubuntu.com/jammy/current/jammy-server-cloudimg-amd64.img";
     extra_packages := [];
     remove_packages := [];
     kernel_version := "";
     output_format := "" |}.

(** Hosts on which exactly one command fails. *)
Definition cloudinit_fails_host : Oracle :=
  failing_at healthy_host (CreateFile "/tmp/mount1/etc/cloud/cloud.cfg.d/chosi.cfg")
    "permission denied".
Definition copy_fails_host : Oracle :=
  failing_at healthy_host
    (CopyData "/tmp/mount1/etc/cloud/cloud.cfg.d/chosi.cfg" "user-data.yaml") "short write".
Definition boot_mount_fails_host : Oracle :=
  failing_at healthy_host (Exec ["mount"; "/dev/loop0p16"; "/tmp/mount1/boot"])
    "wrong fs type".
Definition busy_umount_host : Oracle :=
  failing_at healthy_host (Exec ["umount"; "-R"; "/tmp/mount1"]) "target is busy".
Definition second_unpack_fails_host : Oracle :=
  failing_at healthy_host
    (Exec ["chroot"; "/tmp/mount1"; "dpkg"; "--unpack"; "/tmp/packages/b.deb"])
    "dpkg: error processing archive".
(** A host whose image is exactly one mebibyte. *)
Definition aligned_image_host : Oracle := fun n c =>
  match c with
  | Stat _ => mkRes None "" 1048576
  | _ => healthy_host n c
  end.

(** A template with literal text around the three substitution points. *)
Definition sample_template : list TmplSeg :=
  [Lit "menuentry 'Ubuntu' { linux /"; FieldKernel; Lit " "; FieldCmdline;
   Lit "; initrd /"; FieldInitrd; Lit " }"].

(** Path elements that [path.Clean] keeps as they are. *)
Definition no_slash (s : string) : bool :=
  forallb (fun c => negb (Ascii.eqb c "/"%char)) (list_ascii_of_string s).

Definition normal_elem (e : string) : bool :=
  negb (e =? "") && negb (e =? ".") && negb (e =? "..") && no_slash e.

(** Characters that [html_escape] replaces. *)
Definition html_special (c : ascii) : bool :=
  Ascii.eqb c "034"%char || Ascii.eqb c "&"%char || Ascii.eqb c "'"%char
  || Ascii.eqb c "+"%char || Ascii.eqb c "<"%char || Ascii.eqb c ">"%char
  || Ascii.eqb c "000"%char.

(** The sample configuration asking for an output format other than [vhd] and [raw]. *)
Definition qcow2_output_config : Config :=
  {| cloudinit_config_path := "user-data.yaml";
     image_url := "https://cloud-images.ubuntu.com/jammy/current/jammy-server-cloudimg-amd64.img";
     extra_packages := [];
     remove_packages := [];
     kernel_version := "";
     output_format := "qcow2" |}.

(** * Properties *)

Section Theory.

Variable oracle : Oracle.
Variable goarch : string.
Variable grubConfigTemplate : list TmplSeg.

(** Splits every pending [let (_, _) := m tr in _] produced by unfolding
    [bind] on the outcome of [m tr]. *)
Ltac split_binds :=
  repeat match goal with
         | |- context [match ?m with pair _ _ => _ end] =>
             let a := fresh "a" in let t := fresh "t" in
             destruct m as [a t]; try destruct a; cbn [option_map]
         end.

Lemma run_eq (c : Cmd) (tr : list Cmd) :
  run oracle c tr = (oracle (List.length tr) c, (tr ++ [c])%list).
Proof. reflexivity. Qed.

(** [customizeMount] runs the stages of [stage_plan] in order. *)
Lemma customizeMount_run_stages (mountPath : string) (config : Config) (tr : list Cmd) :
  customizeMount oracle goarch grubConfigTemplate mountPath config tr
    = run_stages oracle goarch grubConfigTemplate mountPath config (stage_plan config) tr.
Proof.
  unfold customizeMount, stage_plan, populated. cbn [filter].
  destruct (negb (Nat.eqb (List.length (remove_packages config)) 0));
  destruct (negb (Nat.eqb (List.length (extra_packages config)) 0));
  destruct (negb (kernel_version config =? "")); cbn [run_stages run_stage];
  unfold bind, ret; split_binds; reflexivity.
Qed.

Lemma run_stages_app (mountPath : string) (config : Config) (l1 l2 : list Stage) (tr : list Cmd) :
  run_stages oracle goarch grubConfigTemplate mountPath config (l1 ++ l2) tr
  = let (e, t) := run_stages oracle goarch grubConfigTemplate mountPath config l1 tr in
    match e with
    | Some m => (Some m, t)
    | None => run_stages oracle goarch grubConfigTemplate mountPath config l2 t
    end.
Proof.
  revert tr; induction l1 as [|s l1 IH]; intros tr; [reflexivity|].
  cbn [app run_stages]. unfold bind.
  destruct (run_stage oracle goarch grubConfigTemplate mountPath config s tr) as [[m|] t].
  - reflexivity.
  - apply IH.
Qed.

(** C5: configuration injection always runs first; package removal,
    package installation and boot regeneration follow in that order, each
    exactly when the configuration populates it, and the first failure
    stops the pipeline.  With only the configuration path set, the only
    guest mutation is configuration injection. *)
Theorem customizeMount_stage_order (mountPath : string) (config : Config) (tr : list Cmd) :
  customizeMount oracle goarch grubConfigTemplate mountPath config tr
    = run_stages oracle goarch grubConfigTemplate mountPath config (stage_plan config) tr
  /\ hd_error (stage_plan config) = Some Inject
  /\ StronglySorted (fun a b => stage_rank a < stage_rank b) (stage_plan config)
  /\ (forall s, In s (stage_plan config) <-> populated config s = true)
  /\ (remove_packages config = [] -> extra_packages config = [] ->
      kernel_version config = "" ->
      customizeMount oracle goarch grubConfigTemplate mountPath config tr
        = run_stage oracle goarch grubConfigTemplate mountPath config Inject tr).
Proof.
  pose proof (customizeMount_run_stages mountPath config tr) as Heq.
  split; [exact Heq|].
  split; [reflexivity|].
  split.
  { unfold stage_plan; cbn [filter].
    destruct (populated config Remove), (populated config Install), (populated config Boot);
      repeat constructor; cbn; lia. }
  split.
  { intros s; unfold stage_plan; rewrite filter_In.
    split; [intros [_ H]; exact H|].
    intros H; split; [destruct s; cbn; tauto | exact H]. }
  intros Hr He Hk. rewrite Heq. unfold stage_plan, populated.
  rewrite Hr, He, Hk. cbn [filter List.length Nat.eqb negb String.eqb].
  cbn [run_stages]. unfold bind, ret. split_binds; reflexivity.
Qed.

Lemma length_snoc {A} (l : list A) (x : A) :
  List.length (l ++ [x])%list = S (List.length l).
Proof. rewrite length_app; cbn; lia. Qed.

(** Unfolds the monad and evaluates the issued commands' trace positions. *)
Ltac unfold_monad :=
  unfold run, bind, ret, defer; cbn beta iota zeta;
  rewrite ?length_app, <- ?app_assoc; cbn [app List.length];
  rewrite ?Nat.add_succ_r, ?Nat.add_0_r.

(** Unfolds the monad and rewrites each command's outcome by a hypothesis. *)
Ltac exec_with_hyps :=
  unfold_monad;
  repeat match goal with
         | H : r_err (oracle _ _) = _ |- _ => rewrite H; cbn beta iota zeta
         end;
  unfold_monad.

(** C10: [configureCloudInit] does not look at the outcome of copying the
    document's bytes: when creating the destination, opening the source
    and closing the destination succeed, it succeeds whatever the copy
    did. *)
Theorem configureCloudInit_ignores_copy (mountPath src : string) (tr : list Cmd) :
  let filePath := path_join mountPath "/etc/cloud/cloud.cfg.d/chosi.cfg" in
  r_err (oracle (List.length tr) (CreateFile filePath)) = None ->
  r_err (oracle (S (List.length tr)) (OpenFile src)) = None ->
  r_err (oracle (S (S (S (List.length tr)))) (CloseFile filePath)) = None ->
  configureCloudInit oracle mountPath src tr
    = (None, (tr ++ [CreateFile filePath; OpenFile src; CopyData filePath src;
                     CloseFile filePath; CloseFile src])%list).
Proof.
  intros filePath H1 H2 H3. unfold configureCloudInit. fold filePath.
  unfold_monad. rewrite H1. unfold_monad. rewrite H2. unfold_monad. rewrite H3.
  unfold_monad. reflexivity.
Qed.

(** ** Commands issued: a computation only appends commands satisfying [P] *)

Definition extends_with (P : Cmd -> Prop) {A} (m : M A) : Prop :=
  forall tr, exists l, snd (m tr) = (tr ++ l)%list /\ Forall P l.

Lemma ext_ret (P : Cmd -> Prop) {A} (a : A) : extends_with P (ret a).
Proof. intros tr; exists []; split; [rewrite app_nil_r; reflexivity | constructor]. Qed.

Lemma ext_run (P : Cmd -> Prop) (c : Cmd) : P c -> extends_with P (run oracle c).
Proof. intros Hc tr; exists [c]; split; [reflexivity | constructor; auto]. Qed.

Lemma ext_bind (P : Cmd -> Prop) {A B} (m : M A) (k : A -> M B) :
  extends_with P m -> (forall a, extends_with P (k a)) -> extends_with P (bind m k).
Proof.
  intros Hm Hk tr. unfold bind.
  destruct (Hm tr) as [l1 [E1 F1]]. destruct (m tr) as [a t]. cbn in E1; subst t.
  destruct (Hk a (tr ++ l1)%list) as [l2 [E2 F2]].
  exists (l1 ++ l2)%list. rewrite E2, app_assoc. split; [reflexivity|].
  apply Forall_app; auto.
Qed.

Lemma ext_defer (P : Cmd -> Prop) {A B} (r : M B) (b : M A) :
  extends_with P r -> extends_with P b -> extends_with P (defer r b).
Proof.
  intros Hr Hb; unfold defer.
  apply ext_bind; [exact Hb|]; intros a.
  apply ext_bind; [exact Hr|]; intros _. apply ext_ret.
Qed.

Ltac ext_solve :=
  repeat first
    [ apply ext_ret
    | apply ext_run
    | apply ext_defer
    | apply ext_bind; [ | intros ?]
    | match goal with
      | |- extends_with _ (match ?x with _ => _ end) => destruct x
      | |- extends_with _ (if ?b then _ else _) => destruct b
      | |- extends_with _ (let (_, _) := ?x in _) => destruct x
      end ].

(** Commands that are not a loop-device detach. *)
Definition not_detach (c : Cmd) : Prop :=
  match c with
  | Exec ("losetup" :: "-d" :: _) => False
  | _ => True
  end.

Lemma installLoop_ext (P : Cmd -> Prop) (mountPath abs tmp : string) (packages : list string) :
  (forall pkg, P (Exec ["cp"; pkg; abs])) ->
  (forall pkg, P (Exec ["chroot"; mountPath; "dpkg"; "--unpack"; path_join tmp (path_base pkg)])) ->
  extends_with P (installLoop oracle mountPath abs tmp packages).
Proof.
  intros Hcp Hun. induction packages as [|pkg rest IH]; cbn [installLoop]; cbv zeta.
  - apply ext_ret.
  - ext_solve; auto.
Qed.

Lemma customizeMount_not_detach (mountPath : string) (config : Config) :
  extends_with not_detach (customizeMount oracle goarch grubConfigTemplate mountPath config).
Proof.
  unfold customizeMount.
  apply ext_bind.
  { unfold configureCloudInit; cbv zeta; ext_solve; exact I. }
  intros e; destruct e; [apply ext_ret|].
  apply ext_bind.
  { destruct (negb _); [|apply ext_ret]. apply ext_bind; [|intros; apply ext_ret].
    induction (remove_packages config); cbn [RemovePackages]; ext_solve; auto; exact I. }
  intros e; destruct e; [apply ext_ret|].
  apply ext_bind.
  { destruct (negb _); [|apply ext_ret]. apply ext_bind; [|intros; apply ext_ret].
    unfold installExtraPackages; cbv zeta. ext_solve; try exact I.
    apply installLoop_ext; intros; exact I. }
  intros e; destruct e; [apply ext_ret|].
  destruct (negb _); [|apply ext_ret]. apply ext_bind; [|intros; apply ext_ret].
  unfold setupBoot, buildInitrd, configureGrub; cbv zeta. ext_solve; exact I.
Qed.

Lemma installLoop_app (mountPath abs tmp : string) (pre rest : list string) (tr : list Cmd) :
  installLoop oracle mountPath abs tmp (pre ++ rest) tr
  = let (e, t) := installLoop oracle mountPath abs tmp pre tr in
    match e with
    | Some m => (Some m, t)
    | None => installLoop oracle mountPath abs tmp rest t
    end.
Proof.
  revert tr; induction pre as [|pkg pre IH]; intros tr; [reflexivity|].
  cbn [app installLoop]; cbv zeta. unfold bind, run, ret; cbn beta iota.
  destruct (r_err (oracle (List.length tr) (Exec ["cp"; pkg; abs]))); [reflexivity|].
  match goal with |- context [r_err ?x] => destruct (r_err x) end; [reflexivity|].
  apply IH.
Qed.

(** C9: once the staging directory has been created, the last thing
    [installExtraPackages] does, on every path, is to remove it; nothing
    before removes it. *)
Theorem installExtraPackages_removes_staging (mountPath : string) (packages : list string)
  (tr : list Cmd) :
  let absTmpDirPath := path_join mountPath "/tmp/packages" in
  r_err (oracle (List.length tr) (Mkdir absTmpDirPath)) = None ->
  exists l, snd (installExtraPackages oracle mountPath packages tr)
              = (tr ++ Mkdir absTmpDirPath :: l ++ [RemoveAll absTmpDirPath])%list
         /\ Forall (fun c => c <> RemoveAll absTmpDirPath) l.
Proof.
  intros abs Hm.
  destruct (installLoop_ext (fun c => c <> RemoveAll abs) mountPath abs "/tmp/packages" packages
              ltac:(intros; discriminate) ltac:(intros; discriminate) (tr ++ [Mkdir abs])%list)
    as [l [E F]].
  exists l; split; [|exact F].
  unfold installExtraPackages; cbv zeta; fold abs.
  unfold bind at 1; rewrite run_eq; cbn beta iota. rewrite Hm.
  unfold defer, bind.
  destruct (installLoop oracle mountPath abs "/tmp/packages" packages (tr ++ [Mkdir abs])%list)
    as [a t]; cbn in E; subst t.
  unfold run, ret; cbn. rewrite <- !app_assoc. reflexivity.
Qed.

(** C6: the artifacts are handled in order and the first failing unpack
    ends the installation: later artifacts are not copied or unpacked,
    the error is the one of that unpack, the staging directory is then
    removed, and [customizeMount] returns that error without running any
    later stage. *)
Theorem installExtraPackages_stops_at_failure (mountPath : string) (pre post : list string)
  (p : string) (tr tr1 : list Cmd) (e : HostErr) :
  let absTmpDirPath := path_join mountPath "/tmp/packages" in
  let copy := Exec ["cp"; p; absTmpDirPath] in
  let unpack := Exec ["chroot"; mountPath; "dpkg"; "--unpack";
                      path_join "/tmp/packages" (path_base p)] in
  let failure := wrap_out "failed to unpack package" e
                   (r_out (oracle (S (List.length tr1)) unpack)) in
  r_err (oracle (List.length tr) (Mkdir absTmpDirPath)) = None ->
  installLoop oracle mountPath absTmpDirPath "/tmp/packages" pre
    (tr ++ [Mkdir absTmpDirPath])%list = (None, tr1) ->
  r_err (oracle (List.length tr1) copy) = None ->
  r_err (oracle (S (List.length tr1)) unpack) = Some e ->
  installExtraPackages oracle mountPath (pre ++ p :: post) tr
    = (Some failure, (tr1 ++ [copy; unpack; RemoveAll absTmpDirPath])%list)
  /\ (forall (config : Config) (tr0 : list Cmd),
        extra_packages config = (pre ++ p :: post)%list ->
        run_stages oracle goarch grubConfigTemplate mountPath config
          (filter (populated config) [Inject; Remove]) tr0 = (None, tr) ->
        customizeMount oracle goarch grubConfigTemplate mountPath config tr0
          = (Some (wrap "failed to install extra packages" failure),
             (tr1 ++ [copy; unpack; RemoveAll absTmpDirPath])%list)).
Proof.
  intros abs copy unpack failure Hm Hpre Hcp Hun.
  assert (Hinst : installExtraPackages oracle mountPath (pre ++ p :: post) tr
                  = (Some failure, (tr1 ++ [copy; unpack; RemoveAll abs])%list)).
  { unfold installExtraPackages; cbv zeta; fold abs.
    unfold bind at 1; rewrite run_eq; cbn beta iota. rewrite Hm.
    unfold defer. unfold bind at 1. rewrite installLoop_app, Hpre.
    cbn [installLoop]; cbv zeta. fold copy.
    unfold bind at 1; rewrite run_eq; cbn beta iota. rewrite Hcp.
    fold unpack. unfold bind at 1; rewrite run_eq; cbn beta iota.
    rewrite length_snoc, Hun. unfold bind, run, ret; cbn beta iota.
    rewrite <- !app_assoc. reflexivity. }
  split; [exact Hinst|].
  intros config tr0 Hx Hst.
  rewrite customizeMount_run_stages.
  unfold stage_plan.
  change [Inject; Remove; Install; Boot] with ([Inject; Remove] ++ [Install; Boot])%list.
  rewrite filter_app, run_stages_app, Hst.
  assert (Hpop : populated config Install = true).
  { cbn. rewrite Hx, length_app. cbn. rewrite Nat.add_succ_r. reflexivity. }
  cbn [filter]. rewrite Hpop. cbn [run_stages run_stage].
  unfold bind at 1 2. rewrite Hx, Hinst. reflexivity.
Qed.

(** Splits the proof on the outcome of every command issued. *)
Ltac case_outcomes :=
  repeat match goal with
         | |- context [match r_err ?x with _ => _ end] =>
             let E := fresh "E" in destruct (r_err x) eqn:E; cbn beta iota zeta
         end.

Ltac norm_lengths :=
  rewrite ?length_app in *; cbn [List.length] in *;
  rewrite ?Nat.add_succ_r, ?Nat.add_0_r in *.

Ltac solve_prefix :=
  cbn [List.length app firstn nth snd fst Nat.sub]; norm_lengths;
  rewrite <- ?app_assoc; cbn [app];
  split; [lia|]; split; [reflexivity|];
  split; [intros j Hj; destruct j as [|[|j]]; cbn [nth]; norm_lengths; first [assumption | lia]|];
  split; [intros Hk; cbn [nth]; norm_lengths; first [congruence | lia]|];
  split;
  [ intros H; first [discriminate H | split; [reflexivity | norm_lengths; assumption]]
  | intros [Hk H]; first [reflexivity | lia | norm_lengths; congruence] ].

(** C8: [mountLoopDevice] mounts the root partition on the scratch
    directory, then (except on arm64) partition 16 on its [boot]
    subdirectory, then the EFI system partition on [boot/efi]: the commands
    issued are a prefix of that list, each command issued before the last
    succeeded, a failing mount ends the operation with an error, and the
    operation succeeds exactly when every mount of the list succeeded. *)
Theorem mountLoopDevice_order (loopDevice mountPath : string) (tr : list Cmd) :
  let plan := ([Exec ["mount"; (loopDevice ++ "p1")%string; mountPath]]
              ++ (if goarch =? "arm64" then []
                  else [Exec ["mount"; (loopDevice ++ "p16")%string; path_join mountPath "/boot"]])
              ++ [Exec ["mount"; (loopDevice ++ "p15")%string; path_join mountPath "/boot/efi"]])%list in
  let res := mountLoopDevice oracle goarch loopDevice mountPath tr in
  exists k, 1 <= k <= List.length plan
    /\ snd res = (tr ++ firstn k plan)%list
    /\ (forall j, j < k - 1 -> r_err (oracle (List.length tr + j) (nth j plan (Stat ""))) = None)
    /\ (k < List.length plan ->
        r_err (oracle (List.length tr + (k - 1)) (nth (k - 1) plan (Stat ""))) <> None)
    /\ (fst res = None <->
        k = List.length plan
        /\ r_err (oracle (List.length tr + (k - 1)) (nth (k - 1) plan (Stat ""))) = None).
Proof.
  intros plan res. subst plan res.
  unfold mountLoopDevice, is_arm64; cbv zeta.
  destruct (goarch =? "arm64"); cbn [negb app].
  all: unfold_monad; case_outcomes; norm_lengths.
  all: first [ exists 1; solve [solve_prefix] | exists 2; solve [solve_prefix]
            | exists 3; solve [solve_prefix] ].
Qed.

Lemma prefix_app (s t : string) : String.prefix s (s ++ t) = true.
Proof.
  induction s as [|c s IH]; [destruct t; reflexivity|]. cbn.
  destruct (ascii_dec c c) as [_|n]; [exact IH | contradiction n; reflexivity].
Qed.

Lemma contains_here (s t : string) : contains s (s ++ t) = true.
Proof.
  assert (E : forall n h, contains n h
                = String.prefix n h || match h with
                                       | EmptyString => false
                                       | String _ r => contains n r
                                       end) by (intros n h; destruct h; reflexivity).
  rewrite E, prefix_app. reflexivity.
Qed.

Lemma contains_app_r (n a b : string) : contains n b = true -> contains n (a ++ b) = true.
Proof.
  intros H; induction a as [|c a IH]; cbn [append]; [exact H|].
  cbn [contains]. rewrite IH. apply orb_true_r.
Qed.

Lemma contains_app_l (n a b : string) : contains n a = true -> contains n (a ++ b) = true.
Proof.
  induction a as [|c a IH]; intros H.
  - destruct n; [destruct b; reflexivity | discriminate H].
  - cbn [append contains] in *. apply orb_true_iff in H as [H|H].
    + apply orb_true_iff; left.
      revert H; clear; revert c a; induction n as [|d n IHn]; intros c a H; [reflexivity|].
      cbn in *. destruct (ascii_dec d c); [|discriminate H].
      destruct a as [|c' a]; [destruct n; [destruct b; reflexivity | discriminate H]|].
      cbn. apply IHn. exact H.
    + apply orb_true_iff; right. apply IH. exact H.
Qed.

(** Each field of the configuration, escaped, appears in the rendered
    text at every substitution point of the template. *)
Lemma render_field (t : list TmplSeg) (c : GrubConfig) (f : TmplSeg) :
  In f t -> (forall s, f <> Lit s) ->
  contains (html_escape (match f with
                         | FieldKernel => Kernel c
                         | FieldInitrd => Initrd c
                         | FieldCmdline => Cmdline c
                         | Lit s => s
                         end)) (render t c) = true.
Proof.
  intros Hin Hlit. induction t as [|g t IH]; [destruct Hin|].
  destruct Hin as [E|Hin].
  - subst g. destruct f; [exfalso; apply (Hlit s); reflexivity | | |]; cbn [render]; apply contains_here.
  - cbn [render]; destruct g; apply contains_app_r; apply IH; exact Hin.
Qed.

(** C7: for kernel version [5.15.0-76-generic], once the initial ramdisk
    has been rebuilt and the configuration file created, [setupBoot]
    writes the template rendered with kernel path
    [vmlinuz-5.15.0-76-generic] and initrd path
    [initrd.img-5.15.0-76-generic], both prefixed with [boot/] on arm64
    only, and each of them and the command line appear in the rendered
    text; the command line contains [console=ttyS0] exactly when the
    architecture is not arm64. *)
Theorem setupBoot_grub_config (mountPath : string) (tr : list Cmd) :
  let kv := "5.15.0-76-generic" in
  let grubConfigPath := path_join mountPath "/boot/grub/grub.cfg" in
  let prefix := if goarch =? "arm64" then "boot/" else "" in
  In FieldKernel grubConfigTemplate ->
  In FieldInitrd grubConfigTemplate ->
  In FieldCmdline grubConfigTemplate ->
  r_err (oracle (List.length tr)
           (Exec ["chroot"; mountPath; "update-initramfs"; "-c"; "-k"; kv])) = None ->
  r_err (oracle (S (List.length tr)) (CreateFile grubConfigPath)) = None ->
  exists config : GrubConfig,
    let doc := render grubConfigTemplate config in
    In (WriteFile grubConfigPath doc)
       (snd (setupBoot oracle goarch grubConfigTemplate mountPath kv tr))
    /\ Kernel config = prefix ++ "vmlinuz-5.15.0-76-generic"
    /\ Initrd config = prefix ++ "initrd.img-5.15.0-76-generic"
    /\ contains (Kernel config) doc = true
    /\ contains (Initrd config) doc = true
    /\ contains (Cmdline config) doc = true
    /\ contains "console=ttyS0" (Cmdline config) = negb (goarch =? "arm64").
Proof.
  intros kv gpath prefix HK HI HC Hinit Hcreate.
  unfold setupBoot, buildInitrd, configureGrub, is_arm64; cbv zeta.
  fold kv gpath.
  unfold_monad. rewrite Hinit. unfold_monad. rewrite Hcreate. unfold_monad.
  eexists; cbv zeta.
  split.
  { case_outcomes; unfold_monad; cbn [snd]; apply in_or_app; right; cbn; auto. }
  subst prefix.
  pose proof (render_field grubConfigTemplate
    {| Kernel := (if goarch =? "arm64" then "boot/" else "") ++ "vmlinuz-" ++ kv;
       Initrd := (if goarch =? "arm64" then "boot/" else "") ++ "initrd.img-" ++ kv;
       Cmdline := if goarch =? "arm64" then "root=LABEL=cloudimg-rootfs ro"
                  else "root=LABEL=cloudimg-rootfs ro console=tty1 console=ttyS0" |})
    as Hr.
  pose proof (Hr FieldKernel HK ltac:(discriminate)) as RK.
  pose proof (Hr FieldInitrd HI ltac:(discriminate)) as RI.
  pose proof (Hr FieldCmdline HC ltac:(discriminate)) as RC.
  clear Hr. cbn [Kernel Initrd Cmdline] in *. subst kv.
  destruct (goarch =? "arm64"); cbn [negb];
    (split; [reflexivity|]); (split; [reflexivity|]);
    vm_compute in RK, RI, RC |- *; auto.
Qed.

(** Mount commands. *)
Definition is_mount (c : Cmd) : Prop := exists a b, c = Exec ["mount"; a; b].

Lemma mountLoopDevice_mounts (loopDevice mountPath : string) :
  extends_with is_mount (mountLoopDevice oracle goarch loopDevice mountPath).
Proof. unfold mountLoopDevice; cbv zeta; ext_solve; eexists; eexists; reflexivity. Qed.

Lemma count_detach_none (l : list Cmd) (d : string) :
  Forall not_detach l -> count_occ cmd_eq_dec l (Exec ["losetup"; "-d"; d]) = 0.
Proof.
  induction l as [|c l IH]; intros F; [reflexivity|].
  inversion F as [|? ? Hc Hl]; subst. cbn.
  destruct (cmd_eq_dec c (Exec ["losetup"; "-d"; d])) as [->|_]; [destruct Hc|].
  apply IH; exact Hl.
Qed.

Lemma mounts_not_detach (l : list Cmd) : Forall is_mount l -> Forall not_detach l.
Proof. apply Forall_impl. intros c [a [b ->]]. exact I. Qed.

(** After a successful attach and scratch-directory creation, the exit
    code of [mountImageAndModifyFilesystem] and the release commands it
    issues, by the outcome of the mount and customisation stages. *)
Lemma mountImage_eq (rawImagePath : string) (config : Config) (tr : list Cmd) :
  let attach := Exec ["losetup"; "--find"; "--show"; "--partscan"; rawImagePath] in
  let out := r_out (oracle (List.length tr) attach) in
  let loopDevice := substring 0 (String.length out - 1) out in
  let mountPath := r_out (oracle (S (List.length tr)) (MkdirTemp "mount*")) in
  let detach := Exec ["losetup"; "-d"; loopDevice] in
  r_err (oracle (List.length tr) attach) = None ->
  r_err (oracle (S (List.length tr)) (MkdirTemp "mount*")) = None ->
  mountImageAndModifyFilesystem oracle goarch grubConfigTemplate rawImagePath config tr
  = match mountLoopDevice oracle goarch loopDevice mountPath
            (tr ++ [attach; MkdirTemp "mount*"])%list with
    | (Some _, t) => (8%Z, (t ++ [RemoveAll mountPath; detach])%list)
    | (None, t) =>
      match customizeMount oracle goarch grubConfigTemplate mountPath config t with
      | (Some _, t') =>
        (9%Z, (t' ++ [Exec ["umount"; "-R"; mountPath]; RemoveAll mountPath; detach])%list)
      | (None, t') =>
        (0%Z, (t' ++ [Exec ["umount"; "-R"; mountPath]; RemoveAll mountPath; detach])%list)
      end
    end.
Proof.
  intros attach out loopDevice mountPath detach Hatt Hmk.
  unfold mountImageAndModifyFilesystem, attachLoopDevice, detachLoopDevice, unmountLoopDevice.
  fold attach. unfold_monad. rewrite Hatt. cbn beta iota zeta. fold out loopDevice.
  unfold_monad. rewrite Hmk. cbn beta iota zeta. fold mountPath.
  destruct (mountLoopDevice oracle goarch loopDevice mountPath (tr ++ [attach; MkdirTemp "mount*"])%list)
    as [[e|] t].
  - unfold_monad. case_outcomes; unfold_monad; reflexivity.
  - destruct (customizeMount oracle goarch grubConfigTemplate mountPath config t) as [[e|] t'];
      unfold_monad; case_outcomes; unfold_monad; case_outcomes; unfold_monad; reflexivity.
Qed.

(** C3: once the loop device is attached and the scratch directory
    made, a failure of the mount stage or of the customisation detaches
    the loop device exactly once.  After a customisation failure the
    releases are, in reverse order of acquisition: recursive unmount,
    scratch-directory removal, detach.  After a mount failure the releases
    are only scratch-directory removal and detach, and every command the
    mount stage issued is a mount: the recursive unmount is registered
    only after the whole mount stage succeeded, so the partitions the
    failed stage did mount are never unmounted (the defect), and the
    scratch directory is removed while they are still mounted on it. *)
Theorem mountImage_failure_releases (rawImagePath : string) (config : Config) (tr : list Cmd) :
  let attach := Exec ["losetup"; "--find"; "--show"; "--partscan"; rawImagePath] in
  let out := r_out (oracle (List.length tr) attach) in
  let loopDevice := substring 0 (String.length out - 1) out in
  let mountPath := r_out (oracle (S (List.length tr)) (MkdirTemp "mount*")) in
  let t0 := (tr ++ [attach; MkdirTemp "mount*"])%list in
  let detach := Exec ["losetup"; "-d"; loopDevice] in
  r_err (oracle (List.length tr) attach) = None ->
  r_err (oracle (S (List.length tr)) (MkdirTemp "mount*")) = None ->
  (forall e t, mountLoopDevice oracle goarch loopDevice mountPath t0 = (Some e, t) ->
     exists lm,
       mountImageAndModifyFilesystem oracle goarch grubConfigTemplate rawImagePath config tr
         = (8%Z, (tr ++ [attach; MkdirTemp "mount*"] ++ lm ++ [RemoveAll mountPath; detach])%list)
       /\ Forall is_mount lm
       /\ count_occ cmd_eq_dec
            ([attach; MkdirTemp "mount*"] ++ lm ++ [RemoveAll mountPath; detach])%list detach = 1)
  /\ (forall t e t', mountLoopDevice oracle goarch loopDevice mountPath t0 = (None, t) ->
       customizeMount oracle goarch grubConfigTemplate mountPath config t = (Some e, t') ->
       exists lm lc,
         mountImageAndModifyFilesystem oracle goarch grubConfigTemplate rawImagePath config tr
           = (9%Z, (tr ++ [attach; MkdirTemp "mount*"] ++ lm ++ lc
                    ++ [Exec ["umount"; "-R"; mountPath]; RemoveAll mountPath; detach])%list)
         /\ Forall is_mount lm
         /\ count_occ cmd_eq_dec
              ([attach; MkdirTemp "mount*"] ++ lm ++ lc
               ++ [Exec ["umount"; "-R"; mountPath]; RemoveAll mountPath; detach])%list detach = 1).
Proof.
  intros attach out loopDevice mountPath t0 detach Hatt Hmk.
  pose proof (mountImage_eq rawImagePath config tr Hatt Hmk) as Heq. cbv zeta in Heq.
  fold attach out loopDevice mountPath t0 detach in Heq.
  destruct (mountLoopDevice_mounts loopDevice mountPath t0) as [lm [Em Fm]].
  assert (Hd : count_occ cmd_eq_dec [attach; MkdirTemp "mount*"] detach = 0).
  { cbn [count_occ]. destruct (cmd_eq_dec attach detach) as [E|_]; [discriminate E|]. reflexivity. }
  assert (Hd1 : count_occ cmd_eq_dec [RemoveAll mountPath; detach] detach = 1).
  { cbn [count_occ]. destruct (cmd_eq_dec (RemoveAll mountPath) detach) as [E|_]; [discriminate E|].
    destruct (cmd_eq_dec detach detach) as [_|n]; [reflexivity | contradiction n; reflexivity]. }
  split.
  - intros e t Hm. exists lm. rewrite Heq, Hm. rewrite Hm in Em; cbn in Em; subst t.
    split; [subst t0; rewrite <- !app_assoc; reflexivity|].
    split; [exact Fm|].
    rewrite !count_occ_app, Hd, Hd1. unfold detach.
    rewrite (count_detach_none lm _ (mounts_not_detach lm Fm)). reflexivity.
  - intros t e t' Hm Hc.
    destruct (customizeMount_not_detach mountPath config t) as [lc [Ec Fc]].
    exists lm, lc. rewrite Heq, Hm, Hc.
    rewrite Hm in Em; cbn in Em; subst t. rewrite Hc in Ec; cbn in Ec; subst t'.
    split; [subst t0; rewrite <- !app_assoc; reflexivity|].
    split; [exact Fm|].
    assert (Hd3 : count_occ cmd_eq_dec
                    [Exec ["umount"; "-R"; mountPath]; RemoveAll mountPath; detach] detach = 1).
    { change [Exec ["umount"; "-R"; mountPath]; RemoveAll mountPath; detach]
        with ([Exec ["umount"; "-R"; mountPath]] ++ [RemoveAll mountPath; detach])%list.
      rewrite count_occ_app, Hd1. cbn [count_occ].
      destruct (cmd_eq_dec (Exec ["umount"; "-R"; mountPath]) detach) as [E|_];
        [injection E; discriminate | reflexivity]. }
    rewrite !count_occ_app, Hd, Hd3. unfold detach in *.
    rewrite (count_detach_none lm _ (mounts_not_detach lm Fm)), (count_detach_none lc _ Fc).
    reflexivity.
Qed.

(** C4 (as the code does it): the outcome of the recursive unmount run
    during cleanup is discarded: when attach, scratch directory, mount and
    customisation succeed, [mountImageAndModifyFilesystem] reports 0 with
    the unmount issued, whatever the unmount's outcome. *)
Theorem mountImage_discards_unmount_error (rawImagePath : string) (config : Config) (tr : list Cmd) :
  let attach := Exec ["losetup"; "--find"; "--show"; "--partscan"; rawImagePath] in
  let out := r_out (oracle (List.length tr) attach) in
  let loopDevice := substring 0 (String.length out - 1) out in
  let mountPath := r_out (oracle (S (List.length tr)) (MkdirTemp "mount*")) in
  let t0 := (tr ++ [attach; MkdirTemp "mount*"])%list in
  r_err (oracle (List.length tr) attach) = None ->
  r_err (oracle (S (List.length tr)) (MkdirTemp "mount*")) = None ->
  forall t t',
    mountLoopDevice oracle goarch loopDevice mountPath t0 = (None, t) ->
    customizeMount oracle goarch grubConfigTemplate mountPath config t = (None, t') ->
    mountImageAndModifyFilesystem oracle goarch grubConfigTemplate rawImagePath config tr
      = (0%Z, (t' ++ [Exec ["umount"; "-R"; mountPath]; RemoveAll mountPath;
                      Exec ["losetup"; "-d"; loopDevice]])%list).
Proof.
  intros attach out loopDevice mountPath t0 Hatt Hmk t t' Hm Hc.
  rewrite (mountImage_eq rawImagePath config tr Hatt Hmk). cbv zeta.
  fold attach out loopDevice mountPath t0. rewrite Hm, Hc. reflexivity.
Qed.

Lemma wrap64_small (z : Z) : (- 2 ^ 63 <= z < 2 ^ 63)%Z -> wrap64 z = z.
Proof.
  intros H. unfold wrap64. rewrite Z.mod_small; lia.
Qed.

Lemma roundedSize_eq (s : Z) :
  (0 <= s < 2 ^ 63 - mebibyte)%Z -> roundedSize s = ((s / mebibyte + 1) * mebibyte)%Z.
Proof.
  intros H. unfold roundedSize, mul64, add64, div64.
  rewrite Z.quot_div_nonneg by (unfold mebibyte; lia).
  assert (Hd := Z.mul_div_le s mebibyte ltac:(unfold mebibyte; lia)).
  assert (Hq : (0 <= s / mebibyte)%Z) by (apply Z.div_pos; unfold mebibyte in *; lia).
  rewrite (wrap64_small (s / mebibyte)) by (unfold mebibyte in *; lia).
  rewrite (wrap64_small (s / mebibyte + 1)) by (unfold mebibyte in *; lia).
  rewrite wrap64_small; [reflexivity|].
  unfold mebibyte in *; lia.
Qed.

(** C2 (as the code does it): for an image of [s] bytes (with [s] below
    [2^63 - MiB], where the [int64] product cannot overflow), the VHD
    conversion resizes the image to [(s / MiB + 1) * MiB] with integer
    division: the least multiple of one mebibyte strictly above [s].  A
    size already aligned grows by one mebibyte. *)
Theorem convert_vhd_resize_size (inputFile outputFile inputFormat : string) (removeInput : bool)
  (tr : list Cmd) :
  let s := r_num (oracle (List.length tr) (Stat inputFile)) in
  r_err (oracle (List.length tr) (Stat inputFile)) = None ->
  (0 <= s < 2 ^ 63 - mebibyte)%Z ->
  nth_error (snd (convertImageToFormat oracle inputFile outputFile inputFormat FormatVHD
                    removeInput tr)) (S (List.length tr))
    = Some (Exec ["qemu-img"; "resize"; "-f"; inputFormat; inputFile; fmt_d (roundedSize s)])
  /\ roundedSize s = ((s / mebibyte + 1) * mebibyte)%Z
  /\ (roundedSize s mod mebibyte = 0)%Z
  /\ (s < roundedSize s <= s + mebibyte)%Z
  /\ (forall m, (m mod mebibyte = 0)%Z -> (s < m)%Z -> (roundedSize s <= m)%Z)
  /\ ((s mod mebibyte = 0)%Z -> roundedSize s = (s + mebibyte)%Z).
Proof.
  intros sz Hst Hs.
  split.
  { unfold convertImageToFormat; cbv zeta. rewrite String.eqb_refl.
    unfold_monad. rewrite Hst. fold sz. unfold_monad.
    case_outcomes; unfold_monad; case_outcomes; unfold_monad;
      try (destruct removeInput; unfold_monad; case_outcomes; unfold_monad);
      cbn [snd]; rewrite nth_error_app2 by lia;
      replace (S (List.length tr) - List.length tr) with 1 by lia; reflexivity. }
  rewrite (roundedSize_eq sz Hs).
  assert (Hm : (0 < mebibyte)%Z) by (unfold mebibyte; lia).
  pose proof (Z.div_mod sz mebibyte ltac:(lia)) as Hdm.
  pose proof (Z.mod_pos_bound sz mebibyte Hm) as Hb.
  split; [reflexivity|].
  split; [apply Z.mod_mul; lia|].
  split; [nia|].
  split.
  { intros m Hmod Hlt.
    pose proof (Z.div_mod m mebibyte ltac:(lia)) as Hdm'. rewrite Hmod in Hdm'.
    assert (sz / mebibyte < m / mebibyte)%Z by nia.
    nia. }
  intros Hal. nia.
Qed.

End Theory.

(** C1: the exit status of [customizeImage] is never 6, 7 or 8 (the codes
    of attach, scratch-directory and mount failures): the code returned by
    [mountImageAndModifyFilesystem] is dropped because the source tests the
    previous [err].  In particular, with everything in order except the
    guest's cloud-init file, which cannot be created (so customisation
    fails), and no output format, the process exits with 0. *)
Theorem customizeImage_drops_stage_code :
  (forall oracle goarch geteuid configPath decodeConfig grubConfigTemplate tr,
     In (fst (customizeImage oracle goarch geteuid configPath decodeConfig grubConfigTemplate tr))
        [0; 1; 2; 3; 4; 5; 9]%Z)
  /\ (let host := cloudinit_fails_host in
      let run := customizeImage host "amd64" 0 "config.json" (fun _ => (sample_config, None)) [] [] in
      fst (mountImageAndModifyFilesystem host "amd64" [] "ubuntu.img" sample_config
             [OpenFile "config.json"; Stat "ubuntu.qcow2.img";
              Exec ["qemu-img"; "convert"; "-f"; "qcow2"; "-O"; "raw";
                    "ubuntu.qcow2.img"; "ubuntu.img"]]) = 9%Z
      /\ firstn 3 (snd run) = [OpenFile "config.json"; Stat "ubuntu.qcow2.img";
              Exec ["qemu-img"; "convert"; "-f"; "qcow2"; "-O"; "raw";
                    "ubuntu.qcow2.img"; "ubuntu.img"]]
      /\ fst run = 0%Z).
Proof.
  split.
  - intros oracle goarch geteuid configPath decodeConfig grubConfigTemplate tr.
    unfold customizeImage; cbv zeta.
    destruct (negb (isRunningAsRoot geteuid)); [cbn; tauto|].
    destruct (configPath =? ""); [cbn; tauto|].
    unfold bind, ret.
    destruct (ParseConfig oracle decodeConfig configPath tr) as [[[c|] [e|]] t];
      [cbn; tauto | | cbn; tauto | cbn; tauto].
    destruct (downloadImageIfNeeded oracle "ubuntu.qcow2.img" c t) as [[e|] t1]; [cbn; tauto|].
    destruct (convertImageToFormat oracle "ubuntu.qcow2.img" "ubuntu.img" FormatQCOW2 FormatRAW
                false t1) as [[e|] t2]; [cbn; tauto|].
    destruct (mountImageAndModifyFilesystem oracle goarch grubConfigTemplate "ubuntu.img" c t2)
      as [code t3].
    destruct (negb (output_format c =? "")); [|cbn; tauto].
    destruct (convertImageToFormat _ _ _ _ _ _ _) as [[e|] t4]; cbn; tauto.
  - vm_compute. repeat split; reflexivity.
Qed.

(** ** Witnesses and counterexamples on concrete hosts *)

Lemma configureCloudInit_ignores_copy_witness :
  r_err (copy_fails_host 2 (CopyData "/tmp/mount1/etc/cloud/cloud.cfg.d/chosi.cfg"
                                     "user-data.yaml")) <> None
  /\ configureCloudInit copy_fails_host "/tmp/mount1" "user-data.yaml" []
     = (None, [CreateFile "/tmp/mount1/etc/cloud/cloud.cfg.d/chosi.cfg";
               OpenFile "user-data.yaml";
               CopyData "/tmp/mount1/etc/cloud/cloud.cfg.d/chosi.cfg" "user-data.yaml";
               CloseFile "/tmp/mount1/etc/cloud/cloud.cfg.d/chosi.cfg";
               CloseFile "user-data.yaml"]).
Proof.
  split; [vm_compute; discriminate|].
  apply (configureCloudInit_ignores_copy copy_fails_host "/tmp/mount1" "user-data.yaml" []);
    vm_compute; reflexivity.
Defined.

Lemma installExtraPackages_removes_staging_witness :
  exists l,
    snd (installExtraPackages second_unpack_fails_host "/tmp/mount1" ["a.deb"; "b.deb"; "c.deb"] [])
      = (Mkdir "/tmp/mount1/tmp/packages" :: l ++ [RemoveAll "/tmp/mount1/tmp/packages"])%list
    /\ Forall (fun c => c <> RemoveAll "/tmp/mount1/tmp/packages") l.
Proof.
  apply (installExtraPackages_removes_staging second_unpack_fails_host "/tmp/mount1"
           ["a.deb"; "b.deb"; "c.deb"] []).
  vm_compute; reflexivity.
Defined.

Lemma installExtraPackages_stops_at_failure_witness :
  exists failure,
    installExtraPackages second_unpack_fails_host "/tmp/mount1" ["a.deb"; "b.deb"] []
    = (Some failure,
       [Mkdir "/tmp/mount1/tmp/packages";
        Exec ["cp"; "a.deb"; "/tmp/mount1/tmp/packages"];
        Exec ["chroot"; "/tmp/mount1"; "dpkg"; "--unpack"; "/tmp/packages/a.deb"];
        Exec ["cp"; "b.deb"; "/tmp/mount1/tmp/packages"];
        Exec ["chroot"; "/tmp/mount1"; "dpkg"; "--unpack"; "/tmp/packages/b.deb"];
        RemoveAll "/tmp/mount1/tmp/packages"]).
Proof.
  eexists.
  apply (proj1 (installExtraPackages_stops_at_failure second_unpack_fails_host "amd64" []
           "/tmp/mount1" ["a.deb"] [] "b.deb" []
           [Mkdir "/tmp/mount1/tmp/packages";
            Exec ["cp"; "a.deb"; "/tmp/mount1/tmp/packages"];
            Exec ["chroot"; "/tmp/mount1"; "dpkg"; "--unpack"; "/tmp/packages/a.deb"]]
           (Failed "dpkg: error processing archive")
           ltac:(vm_compute; reflexivity) ltac:(vm_compute; reflexivity)
           ltac:(vm_compute; reflexivity) ltac:(vm_compute; reflexivity))).
Defined.

Lemma setupBoot_grub_config_witness :
  exists config : GrubConfig,
    In (WriteFile "/tmp/mount1/boot/grub/grub.cfg" (render sample_template config))
       (snd (setupBoot healthy_host "amd64" sample_template "/tmp/mount1" "5.15.0-76-generic" []))
    /\ Kernel config = "vmlinuz-5.15.0-76-generic"
    /\ Initrd config = "initrd.img-5.15.0-76-generic"
    /\ contains (Kernel config) (render sample_template config) = true
    /\ contains (Initrd config) (render sample_template config) = true
    /\ contains (Cmdline config) (render sample_template config) = true
    /\ contains "console=ttyS0" (Cmdline config) = true.
Proof.
  apply (setupBoot_grub_config healthy_host "amd64" sample_template "/tmp/mount1" []);
    vm_compute; auto 10.
Defined.

Lemma convert_vhd_resize_size_witness :
  nth_error (snd (convertImageToFormat healthy_host "ubuntu.img" "ubuntu.img.vhd" "raw"
                    FormatVHD true [])) 1
    = Some (Exec ["qemu-img"; "resize"; "-f"; "raw"; "ubuntu.img"; fmt_d (roundedSize 2361393152)])
  /\ roundedSize 2361393152 = ((2361393152 / mebibyte + 1) * mebibyte)%Z
  /\ (roundedSize 2361393152 mod mebibyte = 0)%Z
  /\ (2361393152 < roundedSize 2361393152 <= 2361393152 + mebibyte)%Z
  /\ (forall m, (m mod mebibyte = 0)%Z -> (2361393152 < m)%Z -> (roundedSize 2361393152 <= m)%Z)
  /\ ((2361393152 mod mebibyte = 0)%Z -> roundedSize 2361393152 = (2361393152 + mebibyte)%Z).
Proof.
  apply (convert_vhd_resize_size healthy_host "ubuntu.img" "ubuntu.img.vhd" "raw" true []).
  - vm_compute; reflexivity.
  - cbn. unfold mebibyte. lia.
Defined.

(** C2 fails: an image of exactly one mebibyte is resized to two. *)
Lemma convert_vhd_aligned_not_idempotent :
  In (Exec ["qemu-img"; "resize"; "-f"; "raw"; "ubuntu.img"; "2097152"])
     (snd (convertImageToFormat aligned_image_host "ubuntu.img" "ubuntu.img.vhd" "raw"
             FormatVHD true []))
  /\ roundedSize 1048576 = 2097152%Z
  /\ roundedSize 1048576 <> ((1048576 + mebibyte - 1) / mebibyte * mebibyte)%Z.
Proof.
  split; [vm_compute; auto 10|].
  split; [vm_compute; reflexivity | vm_compute; discriminate].
Defined.

Lemma mountImage_failure_releases_witness :
  exists lm lc,
    mountImageAndModifyFilesystem cloudinit_fails_host "amd64" [] "ubuntu.img" sample_config []
    = (9%Z, ([Exec ["losetup"; "--find"; "--show"; "--partscan"; "ubuntu.img"];
              MkdirTemp "mount*"] ++ lm ++ lc
             ++ [Exec ["umount"; "-R"; "/tmp/mount1"]; RemoveAll "/tmp/mount1";
                 Exec ["losetup"; "-d"; "/dev/loop0"]])%list)
    /\ Forall is_mount lm
    /\ count_occ cmd_eq_dec
         ([Exec ["losetup"; "--find"; "--show"; "--partscan"; "ubuntu.img"];
           MkdirTemp "mount*"] ++ lm ++ lc
          ++ [Exec ["umount"; "-R"; "/tmp/mount1"]; RemoveAll "/tmp/mount1";
              Exec ["losetup"; "-d"; "/dev/loop0"]])%list
         (Exec ["losetup"; "-d"; "/dev/loop0"]) = 1.
Proof.
  apply (proj2 (mountImage_failure_releases cloudinit_fails_host "amd64" [] "ubuntu.img"
                  sample_config [] ltac:(vm_compute; reflexivity) ltac:(vm_compute; reflexivity))
           [Exec ["losetup"; "--find"; "--show"; "--partscan"; "ubuntu.img"];
            MkdirTemp "mount*"; Exec ["mount"; "/dev/loop0p1"; "/tmp/mount1"];
            Exec ["mount"; "/dev/loop0p16"; "/tmp/mount1/boot"];
            Exec ["mount"; "/dev/loop0p15"; "/tmp/mount1/boot/efi"]]
           "failed to configure cloud-init: error when creating file: permission denied"
           [Exec ["losetup"; "--find"; "--show"; "--partscan"; "ubuntu.img"];
            MkdirTemp "mount*"; Exec ["mount"; "/dev/loop0p1"; "/tmp/mount1"];
            Exec ["mount"; "/dev/loop0p16"; "/tmp/mount1/boot"];
            Exec ["mount"; "/dev/loop0p15"; "/tmp/mount1/boot/efi"];
            CreateFile "/tmp/mount1/etc/cloud/cloud.cfg.d/chosi.cfg"]);
    vm_compute; reflexivity.
Defined.

(** C3 fails: on amd64, when the boot partition cannot be mounted after
    the root partition was, the run ends with code 8 and the root
    partition is never unmounted: the scratch directory it is mounted on
    is removed recursively and the loop device detached while it is
    still mounted. *)
Lemma mountImage_partial_mount_left_mounted :
  let run := mountImageAndModifyFilesystem boot_mount_fails_host "amd64" [] "ubuntu.img"
               sample_config [] in
  fst run = 8%Z
  /\ In (Exec ["mount"; "/dev/loop0p1"; "/tmp/mount1"]) (snd run)
  /\ r_err (boot_mount_fails_host 2 (Exec ["mount"; "/dev/loop0p1"; "/tmp/mount1"])) = None
  /\ existsb (fun c => match c with Exec ("umount" :: _) => true | _ => false end) (snd run)
     = false
  /\ snd run = [Exec ["losetup"; "--find"; "--show"; "--partscan"; "ubuntu.img"];
                MkdirTemp "mount*"; Exec ["mount"; "/dev/loop0p1"; "/tmp/mount1"];
                Exec ["mount"; "/dev/loop0p16"; "/tmp/mount1/boot"];
                RemoveAll "/tmp/mount1"; Exec ["losetup"; "-d"; "/dev/loop0"]].
Proof.
  vm_compute. split; [reflexivity|]. split; [auto 10|]. split; [reflexivity|].
  split; reflexivity.
Defined.

Lemma mountImage_discards_unmount_error_witness :
  exists t',
    mountImageAndModifyFilesystem busy_umount_host "amd64" [] "ubuntu.img" sample_config []
    = (0%Z, (t' ++ [Exec ["umount"; "-R"; "/tmp/mount1"]; RemoveAll "/tmp/mount1";
                    Exec ["losetup"; "-d"; "/dev/loop0"]])%list).
Proof.
  eexists.
  apply (mountImage_discards_unmount_error busy_umount_host "amd64" [] "ubuntu.img"
           sample_config [] ltac:(vm_compute; reflexivity) ltac:(vm_compute; reflexivity)
           [Exec ["losetup"; "--find"; "--show"; "--partscan"; "ubuntu.img"];
            MkdirTemp "mount*"; Exec ["mount"; "/dev/loop0p1"; "/tmp/mount1"];
            Exec ["mount"; "/dev/loop0p16"; "/tmp/mount1/boot"];
            Exec ["mount"; "/dev/loop0p15"; "/tmp/mount1/boot/efi"]]
           [Exec ["losetup"; "--find"; "--show"; "--partscan"; "ubuntu.img"];
            MkdirTemp "mount*"; Exec ["mount"; "/dev/loop0p1"; "/tmp/mount1"];
            Exec ["mount"; "/dev/loop0p16"; "/tmp/mount1/boot"];
            Exec ["mount"; "/dev/loop0p15"; "/tmp/mount1/boot/efi"];
            CreateFile "/tmp/mount1/etc/cloud/cloud.cfg.d/chosi.cfg";
            OpenFile "user-data.yaml";
            CopyData "/tmp/mount1/etc/cloud/cloud.cfg.d/chosi.cfg" "user-data.yaml";
            CloseFile "/tmp/mount1/etc/cloud/cloud.cfg.d/chosi.cfg";
            CloseFile "user-data.yaml"]);
    vm_compute; reflexivity.
Defined.

(** C4 fails: the recursive unmount fails (target busy) and both the stage
    and the whole process report success. *)
Lemma unmount_failure_not_surfaced :
  let run := mountImageAndModifyFilesystem busy_umount_host "amd64" [] "ubuntu.img"
               sample_config [] in
  fst run = 0%Z
  /\ nth_error (snd run) 10 = Some (Exec ["umount"; "-R"; "/tmp/mount1"])
  /\ r_err (busy_umount_host 10 (Exec ["umount"; "-R"; "/tmp/mount1"])) <> None
  /\ fst (customizeImage busy_umount_host "amd64" 0 "config.json"
            (fun _ => (sample_config, None)) [] []) = 0%Z.
Proof.
  vm_compute. split; [reflexivity|]. split; [reflexivity|]. split; [discriminate | reflexivity].
Defined.

(** C7 fails when the default architecture is the one the source's default
    values serve, every architecture but arm64 (here amd64): there the
    written configuration has unprefixed paths and a command line with
    [console=ttyS0], while on arm64, the architecture the source singles
    out, the paths carry [boot/] and the command line has no
    [console=ttyS0]. *)
Lemma setupBoot_arch_assignment :
  let written arch needle :=
    existsb (fun c => match c with WriteFile _ d => contains needle d | _ => false end)
      (snd (setupBoot healthy_host arch sample_template "/tmp/mount1" "5.15.0-76-generic" [])) in
  written "amd64" "console=ttyS0" = true
  /\ written "amd64" "boot/vmlinuz-5.15.0-76-generic" = false
  /\ written "amd64" " /vmlinuz-5.15.0-76-generic" = true
  /\ written "arm64" "console=ttyS0" = false
  /\ written "arm64" "boot/vmlinuz-5.15.0-76-generic" = true
  /\ written "arm64" "boot/initrd.img-5.15.0-76-generic" = true.
Proof.
  vm_compute. repeat split.
Defined.

(** * Further properties of the code *)

Lemma str_app_assoc (a b c : string) : ((a ++ b) ++ c)%string = (a ++ (b ++ c))%string.
Proof. induction a as [|x a IH]; cbn; [reflexivity | rewrite IH; reflexivity]. Qed.

Lemma list_ascii_of_string_app (a b : string) :
  list_ascii_of_string (a ++ b) = (list_ascii_of_string a ++ list_ascii_of_string b)%list.
Proof. induction a as [|x a IH]; cbn; [reflexivity | rewrite IH; reflexivity]. Qed.

Lemma split_path_nonempty (s : string) : split_path s <> [].
Proof.
  induction s as [|c s IH]; cbn; [discriminate|].
  destruct (Ascii.eqb c "/"%char); [discriminate|].
  destruct (split_path s); [contradiction IH; reflexivity | discriminate].
Qed.

Lemma split_path_app (x y : string) :
  split_path (x ++ String "/" y) = (split_path x ++ split_path y)%list.
Proof.
  induction x as [|c x IH]; [reflexivity|].
  cbn [append split_path]. rewrite IH.
  destruct (Ascii.eqb c "/"%char); [reflexivity|].
  pose proof (split_path_nonempty x) as Hn.
  destruct (split_path x); [contradiction Hn; reflexivity | reflexivity].
Qed.

Lemma split_path_no_slash (s : string) : no_slash s = true -> split_path s = [s].
Proof.
  induction s as [|c s IH]; [reflexivity|].
  unfold no_slash; cbn [list_ascii_of_string forallb]. intros H.
  apply andb_true_iff in H as [Hc Hs].
  cbn [split_path]. apply negb_true_iff in Hc. rewrite Hc. rewrite (IH Hs). reflexivity.
Qed.

Lemma split_path_concat (cs : list string) :
  cs <> [] -> Forall (fun e => no_slash e = true) cs -> split_path (String.concat "/" cs) = cs.
Proof.
  induction cs as [|c cs IH]; intros Hne F; [contradiction Hne; reflexivity|].
  inversion F as [|? ? Hc Hcs]; subst.
  destruct cs as [|c' cs'].
  - cbn [String.concat]. apply split_path_no_slash, Hc.
  - change (String.concat "/" (c :: c' :: cs')) with (c ++ String "/" (String.concat "/" (c' :: cs'))).
    rewrite split_path_app, split_path_no_slash by exact Hc.
    rewrite IH by (discriminate || exact Hcs). reflexivity.
Qed.

Lemma fold_clean_tame (rooted : bool) (l st : list string) :
  Forall (fun e => e <> "." /\ e <> "..") l ->
  fold_left (clean_step rooted) l st = (rev (filter (fun e => negb (e =? "")) l) ++ st)%list.
Proof.
  revert st; induction l as [|e l IH]; intros st F; [reflexivity|].
  inversion F as [|? ? [H1 H2] Hl]; subst.
  cbn [fold_left filter]. rewrite IH by exact Hl.
  unfold clean_step.
  destruct (e =? "") eqn:E0.
  - cbn. reflexivity.
  - rewrite (proj2 (String.eqb_neq _ _) H1), (proj2 (String.eqb_neq _ _) H2).
    cbn [orb negb rev].
    rewrite <- app_assoc. reflexivity.
Qed.

Lemma concat_app_ne (cs ds : list string) :
  cs <> [] -> ds <> [] ->
  String.concat "/" (cs ++ ds) = String.concat "/" cs ++ "/" ++ String.concat "/" ds.
Proof.
  induction cs as [|c cs IH]; intros Hc Hd; [contradiction Hc; reflexivity|].
  destruct cs as [|c' cs'].
  - cbn [app]. destruct ds; [contradiction Hd; reflexivity|]. reflexivity.
  - change ((c :: c' :: cs') ++ ds)%list with (c :: ((c' :: cs') ++ ds))%list.
    change (String.concat "/" (c :: (c' :: cs') ++ ds))
      with (c ++ "/" ++ String.concat "/" ((c' :: cs') ++ ds)).
    rewrite IH by (discriminate || exact Hd).
    change (String.concat "/" (c :: c' :: cs')) with (c ++ "/" ++ String.concat "/" (c' :: cs')).
    rewrite !str_app_assoc. reflexivity.
Qed.

Lemma normal_props (cs : list string) :
  forallb normal_elem cs = true ->
  Forall (fun e => no_slash e = true) cs /\ Forall (fun e => e <> "." /\ e <> "..") cs
  /\ filter (fun e => negb (e =? "")) cs = cs.
Proof.
  induction cs as [|c cs IH]; intros H; [repeat constructor|].
  cbn [forallb] in H. apply andb_true_iff in H as [Hc Hcs].
  destruct (IH Hcs) as [A [B C]].
  unfold normal_elem in Hc. rewrite !andb_true_iff, !negb_true_iff in Hc.
  destruct Hc as [[[H0 H1] H2] H3].
  apply String.eqb_neq in H1, H2.
  split; [constructor; auto|]. split; [constructor; auto|].
  cbn [filter]. rewrite H0, C. reflexivity.
Qed.

(** [path.Join] of a clean absolute directory and a clean path (relative
    or absolute) is the concatenation, with one slash between. *)
Lemma path_join_clean (cs ds : list string) (lead : bool) :
  cs <> [] -> ds <> [] -> forallb normal_elem cs = true -> forallb normal_elem ds = true ->
  path_join ("/" ++ String.concat "/" cs)
            ((if lead then "/" else "") ++ String.concat "/" ds)
  = "/" ++ String.concat "/" cs ++ "/" ++ String.concat "/" ds.
Proof.
  intros Hc Hd Nc Nd.
  destruct (normal_props cs Nc) as [Sc [Tc Fc]].
  destruct (normal_props ds Nd) as [Sd [Td Fd]].
  unfold path_join. cbn [String.eqb append].
  unfold path_Clean. cbn [String.eqb is_rooted append].
  change (Ascii.eqb "/" "/") with true. cbn iota.
  cbn [split_path]. change (Ascii.eqb "/" "/") with true. cbn iota.
  rewrite split_path_app.
  rewrite split_path_concat by assumption.
  assert (Hs : split_path ((if lead then "/" else "") ++ String.concat "/" ds)
               = ((if lead then [""] else []) ++ ds)%list).
  { destruct lead; cbn [append].
    - cbn [split_path]. change (Ascii.eqb "/" "/") with true. cbn iota.
      rewrite split_path_concat by assumption. reflexivity.
    - apply split_path_concat; assumption. }
  rewrite Hs.
  rewrite fold_clean_tame.
  2:{ constructor; [split; discriminate|]. apply Forall_app; split; [exact Tc|].
      apply Forall_app; split; [destruct lead; repeat constructor; discriminate | exact Td]. }
  rewrite app_nil_r. cbn [filter String.eqb negb].
  rewrite !filter_app, Fc, Fd.
  replace (filter (fun e => negb (e =? "")) (if lead then [""] else [])) with (@nil string)
    by (destruct lead; reflexivity).
  cbn [app]. rewrite rev_involutive, concat_app_ne by assumption. reflexivity.
Qed.

Lemma path_base_last (pre b : string) :
  normal_elem b = true ->
  (pre = "" \/ exists d, pre = (d ++ "/")%string) ->
  path_base (pre ++ b) = b.
Proof.
  intros Nb Hpre.
  unfold normal_elem in Nb. rewrite !andb_true_iff, !negb_true_iff in Nb.
  destruct Nb as [[[H0 _] _] Hs].
  destruct b as [|c b']; [discriminate H0|].
  unfold no_slash in Hs. cbn [list_ascii_of_string forallb] in Hs.
  apply andb_true_iff in Hs as [Hc Hs]. apply negb_true_iff in Hc.
  assert (Hne : (pre ++ String c b' =? "") = false).
  { destruct pre; reflexivity. }
  unfold path_base. rewrite Hne.
  rewrite list_ascii_of_string_app. cbn [list_ascii_of_string].
  rewrite rev_app_distr. cbn [rev].
  (* the reversed name, its first character being [c]'s last one *)
  assert (Htake : forall (l rest : list ascii),
             forallb (fun x => negb (Ascii.eqb x "/"%char)) l = true ->
             (fix take l := match l with
                            | c :: l' => if Ascii.eqb c "/"%char then [] else c :: take l'
                            | [] => []
                            end) (l ++ rest)%list
             = (l ++ (fix take l := match l with
                            | c :: l' => if Ascii.eqb c "/"%char then [] else c :: take l'
                            | [] => []
                            end) rest)%list).
  { induction l as [|x l IH]; intros rest H; [reflexivity|].
    cbn [forallb] in H. apply andb_true_iff in H as [Hx H]. apply negb_true_iff in Hx.
    cbn [app]. rewrite Hx. rewrite IH by exact H. reflexivity. }
  set (lb := (rev (list_ascii_of_string b') ++ [c])%list).
  assert (Flb : forallb (fun x => negb (Ascii.eqb x "/"%char)) lb = true).
  { unfold lb. rewrite forallb_app. cbn [forallb]. rewrite Hc. cbn [negb andb].
    rewrite andb_true_r. rewrite forallb_forall in Hs.
    apply forallb_forall. intros x Hx. apply Hs. apply in_rev in Hx. exact Hx. }
  assert (Hlb : exists x lb', lb = x :: lb' /\ Ascii.eqb x "/"%char = false).
  { destruct lb as [|x lb'] eqn:E.
    - unfold lb in E. destruct (rev (list_ascii_of_string b')); discriminate E.
    - exists x, lb'. split; [reflexivity|]. cbn in Flb.
      apply andb_true_iff in Flb as [Fx _]. apply negb_true_iff; exact Fx. }
  destruct Hlb as [x [lb' [Elb Ex]]].
  assert (Hdrop : forall R,
             (fix drop l := match l with
                            | c :: l' => if Ascii.eqb c "/"%char then drop l' else l
                            | [] => []
                            end) (lb ++ R)%list = (lb ++ R)%list).
  { intros R. rewrite Elb. cbn [app]. rewrite Ex. reflexivity. }
  assert (Hm : forall (l : list ascii) (s t : string),
             l <> [] -> match l with [] => t | _ :: _ => s end = s).
  { intros l s0 t Hl. destruct l; [contradiction Hl; reflexivity | reflexivity]. }
  rewrite Hdrop, (Htake lb _ Flb), Hm by (rewrite Elb; discriminate).
  destruct Hpre as [-> | [d ->]].
  - cbn [list_ascii_of_string rev]. rewrite app_nil_r.
    unfold lb. rewrite rev_app_distr, rev_involutive. cbn [rev app].
    change (c :: list_ascii_of_string b') with (list_ascii_of_string (String c b')).
    apply string_of_list_ascii_of_string.
  - rewrite list_ascii_of_string_app. cbn [list_ascii_of_string].
    rewrite (rev_app_distr (list_ascii_of_string d)). cbn [rev app]. cbn iota beta.
    change (Ascii.eqb "/" "/") with true. cbn iota. rewrite ?app_nil_r.
    unfold lb. rewrite rev_app_distr, rev_involutive. cbn [rev app].
    change (c :: list_ascii_of_string b') with (list_ascii_of_string (String c b')).
    apply string_of_list_ascii_of_string.
Qed.

(** X1: for a scratch directory given as an absolute path of normal
    elements (non-empty, no [.], [..] or [/]), every guest path the code
    builds with [path.Join] from it (cloud-init drop-in, package staging
    directory, GRUB configuration, [/boot], [/boot/efi]) is the scratch
    directory followed by the joined suffix: none of them escapes it. *)
Theorem guest_paths_under_scratch_dir (cs : list string) :
  cs <> [] -> forallb normal_elem cs = true ->
  let mountPath := "/" ++ String.concat "/" cs in
  path_join mountPath "/etc/cloud/cloud.cfg.d/chosi.cfg"
    = mountPath ++ "/etc/cloud/cloud.cfg.d/chosi.cfg"
  /\ path_join mountPath "/tmp/packages" = mountPath ++ "/tmp/packages"
  /\ path_join mountPath "/boot/grub/grub.cfg" = mountPath ++ "/boot/grub/grub.cfg"
  /\ path_join mountPath "/boot" = mountPath ++ "/boot"
  /\ path_join mountPath "/boot/efi" = mountPath ++ "/boot/efi".
Proof.
  intros Hc Nc mountPath. unfold mountPath.
  repeat split; rewrite str_app_assoc.
  - exact (path_join_clean cs ["etc"; "cloud"; "cloud.cfg.d"; "chosi.cfg"] true
             Hc ltac:(discriminate) Nc eq_refl).
  - exact (path_join_clean cs ["tmp"; "packages"] true Hc ltac:(discriminate) Nc eq_refl).
  - exact (path_join_clean cs ["boot"; "grub"; "grub.cfg"] true Hc ltac:(discriminate) Nc eq_refl).
  - exact (path_join_clean cs ["boot"] true Hc ltac:(discriminate) Nc eq_refl).
  - exact (path_join_clean cs ["boot"; "efi"] true Hc ltac:(discriminate) Nc eq_refl).
Qed.

(** X2: the path handed to [dpkg --unpack] inside the chroot is
    [/tmp/packages/] followed by the last element of the host package
    path, whether or not that path has a directory part: the copy made
    by [cp] into the staging directory. *)
Theorem unpack_path_names_staged_copy (d b : string) :
  normal_elem b = true ->
  path_join "/tmp/packages" (path_base (d ++ "/" ++ b)) = "/tmp/packages/" ++ b
  /\ path_join "/tmp/packages" (path_base b) = "/tmp/packages/" ++ b.
Proof.
  intros Nb.
  assert (J : path_join "/tmp/packages" b = "/tmp/packages/" ++ b).
  { exact (path_join_clean ["tmp"; "packages"] [b] false ltac:(discriminate) ltac:(discriminate)
             eq_refl ltac:(cbn; rewrite Nb; reflexivity)). }
  split.
  - rewrite <- str_app_assoc, path_base_last; [exact J | exact Nb | right; exists d; reflexivity].
  - pose proof (path_base_last "" b Nb (or_introl eq_refl)) as E. cbn [append] in E.
    rewrite E. exact J.
Qed.

Lemma string_length_app (a b : string) :
  String.length (a ++ b) = String.length a + String.length b.
Proof. induction a as [|x a IH]; cbn; [reflexivity | rewrite IH; reflexivity]. Qed.

Lemma substring_prefix (a b : string) : substring 0 (String.length a) (a ++ b) = a.
Proof.
  induction a as [|x a IH]; [destruct b; reflexivity|].
  cbn [append String.length]. destruct b; cbn; rewrite IH; reflexivity.
Qed.


Lemma html_escape_length (s : string) : String.length s <= String.length (html_escape s).
Proof.
  induction s as [|c s IH]; [cbn; lia|].
  cbn [html_escape]. cbv zeta.
  destruct (Ascii.eqb c "034"%char); [cbn; lia|].
  destruct (Ascii.eqb c "&"%char); [cbn; lia|].
  destruct (Ascii.eqb c "'"%char); [cbn; lia|].
  destruct (Ascii.eqb c "+"%char); [cbn; lia|].
  destruct (Ascii.eqb c "<"%char); [cbn; lia|].
  destruct (Ascii.eqb c ">"%char); [cbn; lia|].
  destruct (Ascii.eqb c "000"%char); cbn; lia.
Qed.

(** X3: the escaping applied to the values substituted in the GRUB
    template leaves a value unchanged exactly when it contains none of
    the characters it escapes (double quote, [&], ['], [+], [<], [>], NUL). *)
Theorem html_escape_identity_iff (s : string) :
  html_escape s = s
  <-> forallb (fun c => negb (html_special c)) (list_ascii_of_string s) = true.
Proof.
  induction s as [|c s IH]; [split; reflexivity|].
  cbn [html_escape list_ascii_of_string forallb]. cbv zeta. unfold html_special.
  pose proof (html_escape_length s) as L.
  destruct (Ascii.eqb c "034"%char); cbn [orb negb andb];
    [split; [intros E; apply (f_equal String.length) in E; cbn in E; lia | discriminate]|].
  destruct (Ascii.eqb c "&"%char); cbn [orb negb andb];
    [split; [intros E; apply (f_equal String.length) in E; cbn in E; lia | discriminate]|].
  destruct (Ascii.eqb c "'"%char); cbn [orb negb andb];
    [split; [intros E; apply (f_equal String.length) in E; cbn in E; lia | discriminate]|].
  destruct (Ascii.eqb c "+"%char); cbn [orb negb andb];
    [split; [intros E; apply (f_equal String.length) in E; cbn in E; lia | discriminate]|].
  destruct (Ascii.eqb c "<"%char); cbn [orb negb andb];
    [split; [intros E; apply (f_equal String.length) in E; cbn in E; lia | discriminate]|].
  destruct (Ascii.eqb c ">"%char); cbn [orb negb andb];
    [split; [intros E; apply (f_equal String.length) in E; cbn in E; lia | discriminate]|].
  destruct (Ascii.eqb c "000"%char); cbn [orb negb andb];
    [split; [intros E; apply (f_equal String.length) in E; cbn in E; lia | discriminate]|].
  rewrite <- IH. split; [intros E; injection E; auto | intros ->; reflexivity].
Qed.

(** X4: for an image size within one mebibyte below [2^63], the size
    computed for the VHD resize overflows [int64] and wraps to [-2^63]. *)
Theorem roundedSize_wraps_near_limit (s : Z) :
  (2 ^ 63 - mebibyte <= s < 2 ^ 63)%Z -> roundedSize s = (- 2 ^ 63)%Z.
Proof.
  intros H. unfold roundedSize, mul64, add64, div64.
  rewrite Z.quot_div_nonneg by (unfold mebibyte in *; lia).
  assert (Hq : (s / mebibyte = 2 ^ 43 - 1)%Z).
  { symmetry. apply Z.div_unique with (r := (s - (2 ^ 43 - 1) * mebibyte)%Z);
      unfold mebibyte in *; lia. }
  rewrite Hq. vm_compute. reflexivity.
Qed.

Section Extras.

Variable oracle : Oracle.
Variable goarch : string.
Variable geteuid : Z.
Variable configPath : string.
Variable decodeConfig : string -> Config * option string.
Variable grubConfigTemplate : list TmplSeg.

Ltac unfold_monad :=
  unfold run, bind, ret, defer; cbn beta iota zeta;
  rewrite ?length_app, <- ?app_assoc; cbn [app List.length];
  rewrite ?Nat.add_succ_r, ?Nat.add_0_r.

Ltac case_outcomes :=
  repeat match goal with
         | |- context [match r_err ?x with _ => _ end] =>
             let E := fresh "E" in destruct (r_err x) eqn:E; cbn beta iota zeta;
             rewrite ?length_app in E; cbn [List.length] in E;
             rewrite ?Nat.add_succ_r, ?Nat.add_0_r in E
         end.

(** X5: once the GET request returns a response, [downloadFile] closes
    the response body last, whatever happens; it creates the file
    exactly on status 200, and after that issues nothing else when the
    creation fails, and the copy followed by the closing of the file
    exactly when the creation succeeds; it reports success exactly when
    the status is 200 and both the creation and the copy succeed, and a
    non-200 status is reported with the status text. *)
Theorem downloadFile_releases (url filepath : string) (tr : list Cmd) :
  let n := List.length tr in
  let resp := oracle n (HttpGet url) in
  let res := downloadFile oracle url filepath tr in
  r_err resp = None ->
  exists l,
    snd res = (tr ++ HttpGet url :: l ++ [CloseBody url])%list
    /\ (l <> [] <-> r_num resp = 200%Z)
    /\ (l = [CreateFile filepath] <->
        r_num resp = 200%Z /\ r_err (oracle (S n) (CreateFile filepath)) <> None)
    /\ (l = [CreateFile filepath; CopyData filepath url; CloseFile filepath] <->
        r_num resp = 200%Z /\ r_err (oracle (S n) (CreateFile filepath)) = None)
    /\ (fst res = None <->
        r_num resp = 200%Z /\ r_err (oracle (S n) (CreateFile filepath)) = None
        /\ r_err (oracle (S (S n)) (CopyData filepath url)) = None)
    /\ (r_num resp <> 200%Z -> fst res = Some ("bad status: " ++ r_out resp)).
Proof using oracle.
  cbv zeta. intros H. unfold downloadFile. unfold_monad. rewrite H. cbn beta iota.
  destruct (r_num (oracle (List.length tr) (HttpGet url)) =? 200)%Z eqn:E200;
    [apply Z.eqb_eq in E200 | apply Z.eqb_neq in E200]; cbn [negb].
  - unfold_monad. case_outcomes; unfold_monad;
      [exists [CreateFile filepath] | exists [CreateFile filepath; CopyData filepath url; CloseFile filepath]..];
      cbn [fst snd]; (split; [reflexivity|]);
      repeat split; intros; repeat match goal with H : _ /\ _ |- _ => destruct H end;
      try congruence; try discriminate; auto.
  - unfold_monad. exists []. cbn [fst snd].
    split; [reflexivity|].
    repeat split; intros; repeat match goal with H : _ /\ _ |- _ => destruct H end;
      try congruence; try discriminate; auto.
Qed.

(** X6: when [losetup --show] succeeds and prints a device name followed
    by a newline, [attachLoopDevice] returns that device name without the
    newline, having issued only the attach command. *)
Theorem attachLoopDevice_strips_newline (rawImage dev : string) (tr : list Cmd) :
  let attach := Exec ["losetup"; "--find"; "--show"; "--partscan"; rawImage] in
  r_err (oracle (List.length tr) attach) = None ->
  r_out (oracle (List.length tr) attach) = (dev ++ newline)%string ->
  attachLoopDevice oracle rawImage tr = ((dev, None), (tr ++ [attach])%list).
Proof.
  cbv zeta. intros He Ho. unfold attachLoopDevice. unfold_monad. rewrite He, Ho.
  cbn beta iota zeta. rewrite string_length_app. cbn [String.length newline].
  rewrite Nat.add_sub, substring_prefix. reflexivity.
Qed.

(** X7: [downloadImageIfNeeded] downloads only when [Stat] reports that
    the image does not exist; any other outcome of [Stat], success or
    another error, skips the download and reports no error. *)
Theorem downloadImageIfNeeded_only_if_missing (qcow2ImagePath : string) (config : Config)
  (tr : list Cmd) :
  let st := r_err (oracle (List.length tr) (Stat qcow2ImagePath)) in
  let res := downloadImageIfNeeded oracle qcow2ImagePath config tr in
  (st <> Some NotExist -> res = (None, (tr ++ [Stat qcow2ImagePath])%list))
  /\ (st = Some NotExist ->
      res = downloadFile oracle (image_url config) qcow2ImagePath (tr ++ [Stat qcow2ImagePath])%list).
Proof.
  cbv zeta. unfold downloadImageIfNeeded.
  split; unfold bind at 1; rewrite run_eq; cbn beta iota.
  - intros H. destruct (r_err _) as [[|m]|]; [contradiction H; reflexivity | reflexivity | reflexivity].
  - intros ->. unfold bind, ret.
    destruct (downloadFile oracle (image_url config) qcow2ImagePath (tr ++ [Stat qcow2ImagePath])%list)
      as [[e|] t]; reflexivity.
Qed.

(** X8: [ParseConfig] only opens the configuration file; it returns no
    configuration exactly when the open fails, returns a configuration
    without error exactly when the open and the decoding succeed and both
    the image URL and the cloud-init path are non-empty, and reports a
    missing image URL first. *)
Theorem ParseConfig_validates (path : string) (tr : list Cmd) :
  let opened := oracle (List.length tr) (OpenFile path) in
  let res := ParseConfig oracle decodeConfig path tr in
  snd res = (tr ++ [OpenFile path])%list
  /\ (fst (fst res) = None <-> r_err opened <> None)
  /\ (forall c, fst res = (Some c, None) <->
        r_err opened = None /\ decodeConfig (r_out opened) = (c, None)
        /\ image_url c <> "" /\ cloudinit_config_path c <> "")
  /\ (r_err opened = None -> snd (decodeConfig (r_out opened)) = None ->
      image_url (fst (decodeConfig (r_out opened))) = "" ->
      snd (fst res) = Some "image_url missing").
Proof.
  cbv zeta. unfold ParseConfig, bind, run, ret. cbn beta iota.
  destruct (r_err (oracle (List.length tr) (OpenFile path))) as [e|] eqn:Eo.
  - unfold ret; cbn. split; [reflexivity|]. split; [split; [intros _; discriminate | reflexivity]|].
    split; [intros c; split; [discriminate | intros [C _]; discriminate C]|].
    intros C; discriminate C.
  - destruct (decodeConfig (r_out (oracle (List.length tr) (OpenFile path)))) as [c d] eqn:Ed.
    unfold ret. cbn [fst snd].
    destruct d as [m|].
    + split; [reflexivity|]. split; [split; [discriminate | intros C; contradiction C; reflexivity]|].
      split; [intros c'; split; [intros C; discriminate C | intros [_ [C _]]; discriminate C]|].
      intros _ C; discriminate C.
    + destruct (image_url c =? "") eqn:Ei; [apply String.eqb_eq in Ei | apply String.eqb_neq in Ei].
      * split; [reflexivity|]. split; [split; [discriminate | intros C; contradiction C; reflexivity]|].
        split; [intros c'; split; [intros C; discriminate C | intros [_ [C [Hi _]]]]|].
        { injection C as <-. contradiction. }
        intros _ _ _; reflexivity.
      * destruct (cloudinit_config_path c =? "") eqn:Ec;
          [apply String.eqb_eq in Ec | apply String.eqb_neq in Ec].
        -- split; [reflexivity|]. split; [split; [discriminate | intros C; contradiction C; reflexivity]|].
           split; [intros c'; split; [intros C; discriminate C | intros [_ [C [_ Hc]]]]|].
           { injection C as <-. contradiction. }
           intros _ _ C; contradiction.
        -- split; [reflexivity|]. split; [split; [discriminate | intros C; contradiction C; reflexivity]|].
           split; [intros c'; split|].
           { intros C; injection C as <-. auto. }
           { intros [_ [C _]]. injection C as <-. reflexivity. }
           intros _ _ C; contradiction.
Qed.

(** X9: [RemovePackages] purges the packages in order with one
    [chroot <mountPath> dpkg --purge <pkg>] each; on success every purge was issued and
    succeeded, and on failure the purges stop at the first package whose
    purge failed, whose error and output are reported. *)
Theorem RemovePackages_in_order (mountPath : string) (packages : list string) (tr : list Cmd) :
  let purge pkg := Exec ["chroot"; mountPath; "dpkg"; "--purge"; pkg] in
  let res := RemovePackages oracle mountPath packages tr in
  (fst res = None ->
     snd res = (tr ++ map purge packages)%list
     /\ forall i pkg, nth_error packages i = Some pkg ->
          r_err (oracle (List.length tr + i) (purge pkg)) = None)
  /\ (forall m, fst res = Some m ->
       exists pre p post e,
         packages = (pre ++ p :: post)%list
         /\ snd res = (tr ++ map purge (pre ++ [p]))%list
         /\ (forall i pkg, nth_error pre i = Some pkg ->
               r_err (oracle (List.length tr + i) (purge pkg)) = None)
         /\ r_err (oracle (List.length tr + List.length pre) (purge p)) = Some e
         /\ m = wrap_out "failed to remove package" e
                  (r_out (oracle (List.length tr + List.length pre) (purge p)))).
Proof.
  cbv zeta. revert tr. induction packages as [|pkg rest IH]; intros tr.
  - cbn. split.
    + intros _. split; [rewrite app_nil_r; reflexivity|]. intros [|i] p C; discriminate C.
    + intros m C; discriminate C.
  - cbn [RemovePackages]. unfold bind, run, ret. cbn beta iota.
    destruct (r_err (oracle (List.length tr) (Exec ["chroot"; mountPath; "dpkg"; "--purge"; pkg])))
      as [e|] eqn:Ep.
    + unfold ret; cbn [fst snd]. split; [intros C; discriminate C|].
      intros m Hm. injection Hm as <-.
      exists [], pkg, rest, e. cbn [app map List.length]. rewrite Nat.add_0_r.
      split; [reflexivity|]. split; [reflexivity|].
      split; [intros [|i] p C; discriminate C|]. split; [exact Ep | reflexivity].
    + destruct (IH (tr ++ [Exec ["chroot"; mountPath; "dpkg"; "--purge"; pkg]])%list) as [IHn IHs].
      rewrite length_snoc in IHn, IHs.
      split.
      * intros Hn. destruct (IHn Hn) as [Et Hok]. split.
        { rewrite Et, <- app_assoc. reflexivity. }
        intros [|i] p Hp.
        { injection Hp as <-. rewrite Nat.add_0_r. exact Ep. }
        cbn in Hp. rewrite <- Nat.add_succ_comm. apply Hok; exact Hp.
      * intros m Hm. destruct (IHs m Hm) as [pre [p [post [e [Ep' [Et [Hok [Hf Em]]]]]]]].
        exists (pkg :: pre), p, post, e.
        cbn [app map List.length]. rewrite <- !Nat.add_succ_comm.
        split; [rewrite Ep'; reflexivity|].
        split; [rewrite Et, <- app_assoc; reflexivity|].
        split; [|split; [exact Hf | exact Em]].
        intros [|i] q Hq.
        { injection Hq as <-. rewrite Nat.add_0_r. exact Ep. }
        cbn in Hq. rewrite <- Nat.add_succ_comm. apply Hok; exact Hq.
Qed.

Lemma installLoop_ok (mountPath abs tmp : string) (packages : list string) (tr : list Cmd) :
  let steps pkg := [Exec ["cp"; pkg; abs];
                    Exec ["chroot"; mountPath; "dpkg"; "--unpack"; path_join tmp (path_base pkg)]] in
  fst (installLoop oracle mountPath abs tmp packages tr) = None ->
  snd (installLoop oracle mountPath abs tmp packages tr) = (tr ++ flat_map steps packages)%list
  /\ forall i c, nth_error (flat_map steps packages) i = Some c ->
       r_err (oracle (List.length tr + i) c) = None.
Proof.
  cbv zeta. revert tr. induction packages as [|pkg rest IH]; intros tr.
  - intros _. cbn. split; [rewrite app_nil_r; reflexivity|]. intros [|i] c C; discriminate C.
  - cbn [installLoop]. cbv zeta. unfold bind, run, ret. cbn beta iota.
    destruct (r_err (oracle (List.length tr) (Exec ["cp"; pkg; abs]))) as [e|] eqn:E1;
      [intros C; discriminate C|].
    rewrite length_snoc.
    match goal with |- context [r_err (oracle (S (List.length tr)) ?u)] =>
      destruct (r_err (oracle (S (List.length tr)) u)) as [e|] eqn:E2 end;
      [intros C; discriminate C|].
    intros Hn. destruct (IH _ Hn) as [Et Hok].
    rewrite length_snoc, length_snoc in Hok.
    split; [rewrite Et, <- !app_assoc; reflexivity|].
    intros [|[|i]] c Hc; cbn in Hc.
    + injection Hc as <-. rewrite Nat.add_0_r. exact E1.
    + injection Hc as <-. rewrite Nat.add_1_r. exact E2.
    + rewrite <- Nat.add_succ_comm, <- Nat.add_succ_comm. apply Hok. exact Hc.
Qed.

(** X10: if the staging directory cannot be created,
    [installExtraPackages] issues nothing else (no removal) and fails;
    when it succeeds, it issued the copy and unpack of every package, all
    successful, and then removed the staging directory. *)
Theorem installExtraPackages_outcome (mountPath : string) (packages : list string) (tr : list Cmd) :
  let abs := path_join mountPath "/tmp/packages" in
  let steps pkg := [Exec ["cp"; pkg; abs];
                    Exec ["chroot"; mountPath; "dpkg"; "--unpack";
                          path_join "/tmp/packages" (path_base pkg)]] in
  let res := installExtraPackages oracle mountPath packages tr in
  (r_err (oracle (List.length tr) (Mkdir abs)) <> None ->
     snd res = (tr ++ [Mkdir abs])%list /\ fst res <> None)
  /\ (fst res = None ->
      r_err (oracle (List.length tr) (Mkdir abs)) = None
      /\ snd res = (tr ++ Mkdir abs :: flat_map steps packages ++ [RemoveAll abs])%list
      /\ forall i c, nth_error (flat_map steps packages) i = Some c ->
           r_err (oracle (S (List.length tr + i)) c) = None).
Proof.
  cbv zeta. unfold installExtraPackages. cbv zeta. unfold defer, bind, run, ret. cbn beta iota.
  destruct (r_err (oracle (List.length tr) (Mkdir (path_join mountPath "/tmp/packages"))))
    as [e|] eqn:Em.
  - split; [intros _; split; [reflexivity | discriminate]|]. intros C; discriminate C.
  - split; [intros C; contradiction C; reflexivity|].
    destruct (installLoop oracle mountPath (path_join mountPath "/tmp/packages") "/tmp/packages"
                packages (tr ++ [Mkdir (path_join mountPath "/tmp/packages")])%list)
      as [[e|] t] eqn:Ei; cbn [fst snd]; [intros C; discriminate C|].
    intros _.
    pose proof (installLoop_ok mountPath (path_join mountPath "/tmp/packages") "/tmp/packages"
                  packages (tr ++ [Mkdir (path_join mountPath "/tmp/packages")])%list) as H.
    rewrite Ei in H. destruct (H eq_refl) as [Et Hok]. cbn [snd] in Et. subst t.
    rewrite length_snoc in Hok.
    split; [reflexivity|]. split; [rewrite <- !app_assoc; reflexivity|].
    intros i c Hc. rewrite <- Nat.add_succ_l. apply Hok. exact Hc.
Qed.

(** X11: [setupBoot] rebuilds the initial ramdisk before touching the
    GRUB configuration; a failure of the rebuild or of the file creation
    stops it with an error; otherwise it writes the template rendered
    with the kernel and initrd names for the version (prefixed with
    [boot/] on arm64) and the architecture's command line, closes the
    file, and succeeds exactly when the write succeeds. *)
Theorem setupBoot_outcome (mountPath kv : string) (tr : list Cmd) :
  let n := List.length tr in
  let initrd := Exec ["chroot"; mountPath; "update-initramfs"; "-c"; "-k"; kv] in
  let gpath := path_join mountPath "/boot/grub/grub.cfg" in
  let res := setupBoot oracle goarch grubConfigTemplate mountPath kv tr in
  (r_err (oracle n initrd) <> None -> snd res = (tr ++ [initrd])%list /\ fst res <> None)
  /\ (r_err (oracle n initrd) = None -> r_err (oracle (S n) (CreateFile gpath)) <> None ->
      snd res = (tr ++ [initrd; CreateFile gpath])%list /\ fst res <> None)
  /\ (r_err (oracle n initrd) = None -> r_err (oracle (S n) (CreateFile gpath)) = None ->
      let prefix := if goarch =? "arm64" then "boot/" else "" in
      let cmdline := if goarch =? "arm64" then "root=LABEL=cloudimg-rootfs ro"
                     else "root=LABEL=cloudimg-rootfs ro console=tty1 console=ttyS0" in
      let doc := render grubConfigTemplate
                   {| Kernel := prefix ++ "vmlinuz-" ++ kv;
                      Initrd := prefix ++ "initrd.img-" ++ kv;
                      Cmdline := cmdline |} in
      snd res = (tr ++ [initrd; CreateFile gpath; WriteFile gpath doc; CloseFile gpath])%list
      /\ (fst res = None <-> r_err (oracle (S (S n)) (WriteFile gpath doc)) = None)).
Proof.
  cbv zeta. unfold setupBoot, buildInitrd, configureGrub, is_arm64. unfold_monad.
  case_outcomes; unfold_monad; case_outcomes; unfold_monad;
    cbn [fst snd]; repeat split; intros; try congruence.
Qed.

Lemma steps_ok_3 (n : nat) (a b c : Cmd) :
  ([a; b; c] <> [] /\
   forall i x, nth_error [a; b; c] i = Some x -> r_err (oracle (n + i) x) = None)
  <-> r_err (oracle n a) = None /\ r_err (oracle (S n) b) = None
      /\ r_err (oracle (S (S n)) c) = None.
Proof.
  split.
  - intros [_ H]. rewrite <- (Nat.add_0_r n) at 1.
    rewrite <- (Nat.add_1_r n), <- Nat.add_succ_r.
    split; [apply (H 0); reflexivity|]. split; [apply (H 1); reflexivity | apply (H 2); reflexivity].
  - intros [A [B C]]. split; [discriminate|].
    intros [|[|[|i]]] x Hx; cbn in Hx; try (destruct i; discriminate Hx);
      injection Hx as <-; rewrite ?Nat.add_0_r, ?Nat.add_succ_r, ?Nat.add_0_r; assumption.
Qed.

Lemma steps_ok_1 (n : nat) (a : Cmd) :
  ([a]%list <> []%list /\ forall i x, nth_error [a] i = Some x -> r_err (oracle (n + i) x) = None)
  <-> r_err (oracle n a) = None.
Proof.
  split.
  - intros [_ H]. rewrite <- (Nat.add_0_r n). apply (H 0); reflexivity.
  - intros A. split; [discriminate|].
    intros [|i] x Hx; cbn in Hx; [injection Hx as <-; rewrite Nat.add_0_r; exact A|].
    destruct i; discriminate Hx.
Qed.

(** X12: [convertImageToFormat] removes its input only when asked to
    and only after every conversion command succeeded, as its last
    command; it succeeds exactly when the conversion succeeded and, if
    asked, the removal too; an output format other than [vhd] and [raw]
    issues no command and reports that the format is not implemented. *)
Theorem convertImageToFormat_removes_input_last
  (inputFile outputFile inputFormat outputFormat : string) (removeInput : bool) (tr : list Cmd) :
  let n := List.length tr in
  let res := convertImageToFormat oracle inputFile outputFile inputFormat outputFormat removeInput tr in
  let resize := Exec ["qemu-img"; "resize"; "-f"; inputFormat; inputFile;
                      fmt_d (roundedSize (r_num (oracle n (Stat inputFile))))] in
  let steps :=
    if outputFormat =? FormatVHD then
      [Stat inputFile; resize;
       Exec ["qemu-img"; "convert"; "-f"; inputFormat; "-o"; "subformat=fixed,force_size";
             "-O"; "vpc"; inputFile; outputFile]]
    else if outputFormat =? FormatRAW then
      [Exec ["qemu-img"; "convert"; "-f"; inputFormat; "-O"; FormatRAW; inputFile; outputFile]]
    else [] in
  let converted :=
    steps <> [] /\ forall i c, nth_error steps i = Some c -> r_err (oracle (n + i) c) = None in
  exists l,
    snd res = (tr ++ l)%list
    /\ (In (RemoveFile inputFile) l <-> removeInput = true /\ converted)
    /\ (removeInput = true -> converted -> l = (steps ++ [RemoveFile inputFile])%list)
    /\ (fst res = None <->
        converted /\ (removeInput = true ->
                      r_err (oracle (n + List.length steps) (RemoveFile inputFile)) = None))
    /\ (steps = [] -> l = [] /\ fst res = Some "format not implemented").
Proof.
  cbv zeta. unfold convertImageToFormat. cbv zeta.
  destruct (outputFormat =? FormatVHD) eqn:Ev; [|destruct (outputFormat =? FormatRAW) eqn:Er].
  - setoid_rewrite steps_ok_3. cbn [List.length app]. rewrite ?Nat.add_succ_r, ?Nat.add_0_r.
    unfold_monad. case_outcomes; unfold_monad; case_outcomes; unfold_monad;
      [ | | | destruct removeInput; unfold_monad; case_outcomes; unfold_monad].
    all: eexists; split; [reflexivity|]; cbn [In fst snd];
      intuition (try discriminate; try congruence).
  - setoid_rewrite steps_ok_1. cbn [List.length app]. rewrite ?Nat.add_succ_r, ?Nat.add_0_r.
    unfold_monad. case_outcomes; unfold_monad;
      [ | destruct removeInput; unfold_monad; case_outcomes; unfold_monad].
    all: eexists; split; [reflexivity|]; cbn [In fst snd];
      intuition (try discriminate; try congruence).
  - unfold ret. exists []. cbn [In fst snd]. rewrite app_nil_r.
    intuition (try discriminate; try congruence).
Qed.

(** X13: if the attach fails, [mountImageAndModifyFilesystem] exits
    with 6 having issued only the attach; once the attach succeeds, the
    detach is issued exactly once, as the last command, the exit code is
    not 6, and a failure to create the scratch directory exits with 7
    with nothing between the attach and the detach but that attempt. *)
Theorem mountImage_detach_once_last (rawImagePath : string) (config : Config) (tr : list Cmd) :
  let attach := Exec ["losetup"; "--find"; "--show"; "--partscan"; rawImagePath] in
  let out := r_out (oracle (List.length tr) attach) in
  let loopDevice := substring 0 (String.length out - 1) out in
  let detach := Exec ["losetup"; "-d"; loopDevice] in
  let res := mountImageAndModifyFilesystem oracle goarch grubConfigTemplate rawImagePath config tr in
  (r_err (oracle (List.length tr) attach) <> None -> res = (6%Z, (tr ++ [attach])%list))
  /\ (r_err (oracle (List.length tr) attach) = None ->
      exists l,
        snd res = (tr ++ attach :: l ++ [detach])%list
        /\ Forall not_detach l
        /\ fst res <> 6%Z
        /\ (r_err (oracle (S (List.length tr)) (MkdirTemp "mount*")) <> None ->
            fst res = 7%Z /\ l = [MkdirTemp "mount*"])).
Proof.
  intros attach out loopDevice detach res. split.
  - intros Hatt. unfold res, mountImageAndModifyFilesystem, attachLoopDevice. fold attach.
    unfold_monad. destruct (r_err (oracle (List.length tr) attach)); [reflexivity | congruence].
  - intros Hatt.
    destruct (r_err (oracle (S (List.length tr)) (MkdirTemp "mount*"))) eqn:Hmk.
    + exists [MkdirTemp "mount*"].
      unfold res, mountImageAndModifyFilesystem, attachLoopDevice, detachLoopDevice. fold attach.
      unfold_monad. rewrite Hatt. cbn beta iota zeta. fold out loopDevice.
      unfold_monad. rewrite Hmk. unfold_monad. case_outcomes; unfold_monad; cbn [fst snd];
        (split; [reflexivity|]); (split; [repeat constructor|]);
        (split; [discriminate|]); intros; split; reflexivity.
    + pose proof (mountImage_eq oracle goarch grubConfigTemplate rawImagePath config tr Hatt Hmk)
        as Heq. cbv zeta in Heq. fold attach out loopDevice detach in Heq.
      unfold res. rewrite Heq.
      set (mountPath := r_out (oracle (S (List.length tr)) (MkdirTemp "mount*"))).
      set (t0 := (tr ++ [attach; MkdirTemp "mount*"])%list).
      destruct (mountLoopDevice_mounts oracle goarch loopDevice mountPath t0) as [lm [Em Fm]].
      destruct (mountLoopDevice oracle goarch loopDevice mountPath t0) as [[e|] t];
        cbn [snd] in Em; subst t.
      * exists (MkdirTemp "mount*" :: lm ++ [RemoveAll mountPath])%list. cbn [fst snd].
        split; [unfold t0; rewrite <- !app_assoc; cbn [app]; rewrite <- ?app_assoc; reflexivity|].
        split; [constructor; [exact I|]; apply Forall_app; split;
                [exact (mounts_not_detach lm Fm) | repeat constructor]|].
        split; [discriminate | intros C; contradiction C; reflexivity].
      * destruct (customizeMount_not_detach oracle goarch grubConfigTemplate mountPath config
                    (t0 ++ lm)%list) as [lc [Ec Fc]].
        exists (MkdirTemp "mount*" :: lm ++ lc
                ++ [Exec ["umount"; "-R"; mountPath]; RemoveAll mountPath])%list.
        destruct (customizeMount oracle goarch grubConfigTemplate mountPath config (t0 ++ lm)%list)
          as [[e|] t']; cbn [snd] in Ec; subst t'; cbn [fst snd];
          (split; [unfold t0; rewrite <- !app_assoc; cbn [app]; rewrite <- ?app_assoc; reflexivity|]);
          (split; [constructor; [exact I|]; apply Forall_app; split;
                   [exact (mounts_not_detach lm Fm) |
                    apply Forall_app; split; [exact Fc | repeat constructor]]|]);
          (split; [discriminate | intros C; contradiction C; reflexivity]).
Qed.

(** X14: [customizeImage] exits with 1 exactly when not running as
    root, issuing nothing; an exit with 2 happens only when running as
    root and issues nothing; an exit with 3 has issued only the opening
    of the configuration file. *)
Theorem customizeImage_early_exits (tr : list Cmd) :
  let res := customizeImage oracle goarch geteuid configPath decodeConfig grubConfigTemplate tr in
  (fst res = 1%Z <-> geteuid <> 0%Z)
  /\ (fst res = 1%Z -> snd res = tr)
  /\ (fst res = 2%Z -> geteuid = 0%Z /\ snd res = tr)
  /\ (fst res = 3%Z -> snd res = (tr ++ [OpenFile configPath])%list).
Proof.
  cbv zeta. unfold customizeImage, isRunningAsRoot. cbv zeta.
  destruct (Z.eqb_spec geteuid 0) as [Hg|Hg]; cbn [negb];
    [|unfold ret; cbn [fst snd]; intuition (try congruence; try discriminate)].
  destruct (String.eqb_spec configPath "") as [Hc|Hc];
    [unfold ret; cbn [fst snd]; intuition (try congruence; try discriminate)|].
  assert (HP : snd (ParseConfig oracle decodeConfig configPath tr)
               = (tr ++ [OpenFile configPath])%list).
  { unfold ParseConfig. unfold_monad. destruct (r_err _); [reflexivity|].
    destruct (decodeConfig _) as [c [e|]]; [reflexivity|].
    destruct (image_url c =? ""); [reflexivity|].
    destruct (cloudinit_config_path c =? ""); reflexivity. }
  unfold bind, ret.
  destruct (ParseConfig oracle decodeConfig configPath tr) as [[[c|] [e|]] t];
    cbn [snd] in HP; subst t;
    [unfold ret; cbn [fst snd]; intuition (try congruence; try discriminate) | |
     unfold ret; cbn [fst snd]; intuition (try congruence; try discriminate)
    | unfold ret; cbn [fst snd]; intuition (try congruence; try discriminate)].
  destruct (downloadImageIfNeeded oracle "ubuntu.qcow2.img" c
              (tr ++ [OpenFile configPath])%list) as [[e|] t1];
    [cbn [fst snd]; intuition (try congruence; try discriminate)|].
  destruct (convertImageToFormat oracle "ubuntu.qcow2.img" "ubuntu.img" FormatQCOW2 FormatRAW
              false t1) as [[e|] t2]; [cbn [fst snd]; intuition (try congruence; try discriminate)|].
  destruct (mountImageAndModifyFilesystem oracle goarch grubConfigTemplate "ubuntu.img" c t2)
    as [code t3].
  destruct (negb (output_format c =? ""));
    [|cbn [fst snd]; intuition (try congruence; try discriminate)].
  destruct (convertImageToFormat _ _ _ _ _ _ _) as [[e|] t4];
    cbn [fst snd]; intuition (try congruence; try discriminate).
Qed.

(** X15: with an output format other than empty, [vhd] and [raw], once
    the image has been prepared [customizeImage] exits with 9 right after
    [mountImageAndModifyFilesystem], issuing no conversion command, so
    the raw image is left in place. *)
Theorem customizeImage_unsupported_output_format (tr t1 t2 t3 : list Cmd) (c : Config) :
  geteuid = 0%Z ->
  configPath <> "" ->
  ParseConfig oracle decodeConfig configPath tr = ((Some c, None), t1) ->
  downloadImageIfNeeded oracle "ubuntu.qcow2.img" c t1 = (None, t2) ->
  convertImageToFormat oracle "ubuntu.qcow2.img" "ubuntu.img" FormatQCOW2 FormatRAW false t2
    = (None, t3) ->
  output_format c <> "" -> output_format c <> FormatVHD -> output_format c <> FormatRAW ->
  customizeImage oracle goarch geteuid configPath decodeConfig grubConfigTemplate tr
    = (9%Z, snd (mountImageAndModifyFilesystem oracle goarch grubConfigTemplate
                   "ubuntu.img" c t3)).
Proof.
  intros Hg Hc HP HD HC Hf Hv Hr.
  unfold customizeImage, isRunningAsRoot. cbv zeta.
  rewrite (proj2 (Z.eqb_eq _ _) Hg), (proj2 (String.eqb_neq _ _) Hc). cbn [negb].
  unfold bind at 1. rewrite HP. cbv beta iota.
  unfold bind at 1. rewrite HD. cbv beta iota.
  unfold bind at 1. rewrite HC. cbv beta iota.
  unfold bind at 1.
  destruct (mountImageAndModifyFilesystem oracle goarch grubConfigTemplate "ubuntu.img" c t3)
    as [code t4]. cbv beta iota.
  rewrite (proj2 (String.eqb_neq _ _) Hf). cbn [negb].
  unfold convertImageToFormat. cbv zeta.
  rewrite (proj2 (String.eqb_neq _ _) Hv), (proj2 (String.eqb_neq _ _) Hr).
  reflexivity.
Qed.

(** X16: [configureCloudInit] stops after a failed creation of the guest
    file, and after a failed opening of the source file without closing
    the guest file it created; otherwise it copies, closes the guest
    file, closes the source file, and succeeds exactly when closing the
    guest file succeeds. *)
Theorem configureCloudInit_outcome (mountPath cloudInitConfigPath : string) (tr : list Cmd) :
  let n := List.length tr in
  let fp := path_join mountPath "/etc/cloud/cloud.cfg.d/chosi.cfg" in
  let res := configureCloudInit oracle mountPath cloudInitConfigPath tr in
  (r_err (oracle n (CreateFile fp)) <> None ->
   snd res = (tr ++ [CreateFile fp])%list /\ fst res <> None)
  /\ (r_err (oracle n (CreateFile fp)) = None ->
      r_err (oracle (S n) (OpenFile cloudInitConfigPath)) <> None ->
      snd res = (tr ++ [CreateFile fp; OpenFile cloudInitConfigPath])%list /\ fst res <> None)
  /\ (r_err (oracle n (CreateFile fp)) = None ->
      r_err (oracle (S n) (OpenFile cloudInitConfigPath)) = None ->
      snd res = (tr ++ [CreateFile fp; OpenFile cloudInitConfigPath;
                        CopyData fp cloudInitConfigPath; CloseFile fp;
                        CloseFile cloudInitConfigPath])%list
      /\ (fst res = None <-> r_err (oracle (S (S (S n))) (CloseFile fp)) = None)).
Proof.
  cbv zeta. unfold configureCloudInit. cbv zeta.
  unfold_monad. case_outcomes; unfold_monad; case_outcomes; unfold_monad; case_outcomes;
    unfold_monad; case_outcomes; cbn [fst snd];
    repeat split; intros; try congruence; try discriminate.
Qed.

End Extras.


Lemma guest_paths_under_scratch_dir_witness :
  let mountPath := "/" ++ String.concat "/" ["tmp"; "mount1"] in
  path_join mountPath "/etc/cloud/cloud.cfg.d/chosi.cfg"
    = mountPath ++ "/etc/cloud/cloud.cfg.d/chosi.cfg"
  /\ path_join mountPath "/tmp/packages" = mountPath ++ "/tmp/packages"
  /\ path_join mountPath "/boot/grub/grub.cfg" = mountPath ++ "/boot/grub/grub.cfg"
  /\ path_join mountPath "/boot" = mountPath ++ "/boot"
  /\ path_join mountPath "/boot/efi" = mountPath ++ "/boot/efi".
Proof.
  apply (guest_paths_under_scratch_dir ["tmp"; "mount1"]); [discriminate | reflexivity].
Defined.

Lemma unpack_path_names_staged_copy_witness :
  path_join "/tmp/packages" (path_base ("/home/user/debs" ++ "/" ++ "hello_2.10_amd64.deb"))
    = "/tmp/packages/" ++ "hello_2.10_amd64.deb"
  /\ path_join "/tmp/packages" (path_base "hello_2.10_amd64.deb")
    = "/tmp/packages/" ++ "hello_2.10_amd64.deb".
Proof.
  apply (unpack_path_names_staged_copy "/home/user/debs" "hello_2.10_amd64.deb").
  vm_compute; reflexivity.
Defined.

Lemma downloadFile_releases_witness :
  exists l,
    snd (downloadFile healthy_host "https://example.com/a.img" "ubuntu.qcow2.img" [])
      = ([] ++ HttpGet "https://example.com/a.img" :: l
            ++ [CloseBody "https://example.com/a.img"])%list
    /\ (l <> [] <-> r_num (healthy_host 0 (HttpGet "https://example.com/a.img")) = 200%Z).
Proof.
  destruct (downloadFile_releases healthy_host "https://example.com/a.img" "ubuntu.qcow2.img" []
              ltac:(vm_compute; reflexivity)) as [l [H1 [H2 _]]].
  exists l. split; [exact H1 | exact H2].
Defined.

Lemma attachLoopDevice_strips_newline_witness :
  attachLoopDevice healthy_host "ubuntu.img" []
    = (("/dev/loop0", None),
       [Exec ["losetup"; "--find"; "--show"; "--partscan"; "ubuntu.img"]]).
Proof.
  apply (attachLoopDevice_strips_newline healthy_host "ubuntu.img" "/dev/loop0" []);
    vm_compute; reflexivity.
Defined.

Lemma customizeImage_unsupported_output_format_witness :
  customizeImage healthy_host "amd64" 0 "config.json" (fun _ => (qcow2_output_config, None)) [] []
    = (9%Z, snd (mountImageAndModifyFilesystem healthy_host "amd64" [] "ubuntu.img"
                   qcow2_output_config
                   [OpenFile "config.json"; Stat "ubuntu.qcow2.img";
                    Exec ["qemu-img"; "convert"; "-f"; "qcow2"; "-O"; "raw";
                          "ubuntu.qcow2.img"; "ubuntu.img"]])).
Proof.
  apply (customizeImage_unsupported_output_format healthy_host "amd64" 0 "config.json"
           (fun _ => (qcow2_output_config, None)) [] []
           [OpenFile "config.json"]
           [OpenFile "config.json"; Stat "ubuntu.qcow2.img"]
           [OpenFile "config.json"; Stat "ubuntu.qcow2.img";
            Exec ["qemu-img"; "convert"; "-f"; "qcow2"; "-O"; "raw";
                  "ubuntu.qcow2.img"; "ubuntu.img"]]
           qcow2_output_config);
    first [ reflexivity
          | apply (proj1 (String.eqb_neq _ _)); reflexivity
          | vm_compute; reflexivity ].
Defined.

Lemma roundedSize_wraps_near_limit_witness :
  (2 ^ 63 - mebibyte <= 2 ^ 63 - 1 < 2 ^ 63)%Z /\ roundedSize (2 ^ 63 - 1) = (- 2 ^ 63)%Z.
Proof.
  split; [unfold mebibyte; lia|].
  apply (roundedSize_wraps_near_limit (2 ^ 63 - 1)). unfold mebibyte; lia.
Defined.
